(** * Wan video API: a shallow embedding of the service's decision logic

  The development follows the layout of the repository:
  - [Py]: the fragment of Python the code relies on (exceptions, truthiness,
    string and path helpers, binary64 arithmetic);
  - [Config]: [core/config.py];
  - [FileUtils]: [utils/file_utils.py];
  - [WanModel], [ImageProcessor], [Engine]: [models/wan_model.py] (the
    data, the preprocessor class, the model wrapper);
  - [Routes]: [wan_video_api/api/routes.py] (open variant);
  - [AuthRoutes]: [gczm_ti_to_video/api/routes.py] (authenticated variant);
  - [Launcher]: [scripts/start_server.py].

  Calls to [logger] and [print] change no control flow and are left out.
  Everything the code obtains from outside the process (the diffusion
  pipeline, the image decoder, the file system, the random file token, the
  import system, the platform's [pow]) is passed in explicitly.  Further
  modules cover [pathlib] ([PurePath]), loading ([Loading]), startup and
  reload ([App]), file cleanup ([FileOps]) and [scripts/test_api.py]
  ([SmokeTest]). *)

From Stdlib Require Import ZArith List String Ascii Bool Lia.
From Stdlib Require Import Permutation Sorted.
From Stdlib Require Import DecimalString.
From Stdlib Require Import SpecFloat.
Import ListNotations.

Open Scope string_scope.
Open Scope Z_scope.

(* ================================================================== *)
(** ** The Python fragment                                             *)
(* ================================================================== *)

Module Py.

(** Exception classes that occur in the modelled code.  [KeyboardInterrupt]
    and [SystemExit] derive from [BaseException] only. *)
Inductive exn_class :=
| RuntimeError | ValueError | TypeError | AttributeError
| ZeroDivisionError | OverflowError | IndexError
| FileNotFoundError | NotADirectoryError | ImportError
| KeyboardInterrupt | SystemExit (code : Z)
| OtherException.

Record exn := Exn { exn_cls : exn_class; exn_msg : string }.

Definition is_Exception (c : exn_class) : bool :=
  match c with
  | KeyboardInterrupt | SystemExit _ => false
  | _ => true
  end.

Definition is_ImportError (c : exn_class) : bool :=
  match c with ImportError => true | _ => false end.

Definition is_ValueError (c : exn_class) : bool :=
  match c with ValueError => true | _ => false end.

Inductive result (A : Type) :=
| Ok (a : A)
| Raise (e : exn).
Arguments Ok {A} a.
Arguments Raise {A} e.

Definition bind {A B} (r : result A) (k : A -> result B) : result B :=
  match r with
  | Ok a => k a
  | Raise e => Raise e
  end.

Definition raise {A} (c : exn_class) (msg : string) : result A :=
  Raise (Exn c msg).

(** [str(n)] for an integer. *)
Definition str_of_Z (z : Z) : string := NilZero.string_of_int (Z.to_int z).

(** *** Strings *)

Definition truthy_str (s : string) : bool :=
  match s with EmptyString => false | _ => true end.

Definition lower_ascii (c : ascii) : ascii :=
  let n := nat_of_ascii c in
  if (Nat.leb 65 n && Nat.leb n 90)%bool then ascii_of_nat (n + 32) else c.

(** [s.lower()] on the ASCII letters; other bytes are left as they are. *)
Fixpoint str_lower (s : string) : string :=
  match s with
  | EmptyString => EmptyString
  | String c s' => String (lower_ascii c) (str_lower s')
  end.

(** [s.lstrip(c)] for a single character [c]. *)
Fixpoint lstrip_char (c : ascii) (s : string) : string :=
  match s with
  | EmptyString => EmptyString
  | String a s' => if Ascii.eqb a c then lstrip_char c s' else s
  end.

Definition is_space (c : ascii) : bool :=
  let n := nat_of_ascii c in
  ((Nat.leb 9 n && Nat.leb n 13) || (Nat.leb 28 n && Nat.leb n 32))%bool.

Fixpoint lstrip_ws (s : string) : string :=
  match s with
  | EmptyString => EmptyString
  | String a s' => if is_space a then lstrip_ws s' else s
  end.

Fixpoint rstrip_ws (s : string) : string :=
  match s with
  | EmptyString => EmptyString
  | String a s' =>
      match rstrip_ws s' with
      | EmptyString => if is_space a then EmptyString else String a EmptyString
      | r => String a r
      end
  end.

(** [s.strip()]. *)
Definition str_strip (s : string) : string := rstrip_ws (lstrip_ws s).

(** [s.split(c)]: never empty, one more piece than separators. *)
Fixpoint str_split (c : ascii) (s : string) : list string :=
  match s with
  | EmptyString => [EmptyString]
  | String a s' =>
      if Ascii.eqb a c then EmptyString :: str_split c s'
      else match str_split c s' with
           | [] => [String a EmptyString]
           | w :: ws => String a w :: ws
           end
  end.

(** [s.rfind(c)]: index of the last occurrence, [None] for -1. *)
Fixpoint str_rfind (c : ascii) (s : string) : option nat :=
  match s with
  | EmptyString => None
  | String a s' =>
      match str_rfind c s' with
      | Some i => Some (S i)
      | None => if Ascii.eqb a c then Some O else None
      end
  end.

Definition str_in (s : string) (l : list string) : bool :=
  existsb (String.eqb s) l.

Definition str_startswith (p s : string) : bool := String.prefix p s.

Fixpoint str_join (sep : string) (l : list string) : string :=
  match l with
  | [] => EmptyString
  | [x] => x
  | x :: xs => x ++ sep ++ str_join sep xs
  end.

(** [repr] of a list of strings, for strings without quotes, backslashes
    or unprintable characters (extensions are such strings). *)
Definition repr_str_list (l : list string) : string :=
  "[" ++ str_join ", " (map (fun s => "'" ++ s ++ "'") l) ++ "]".

(** *** Paths ([pathlib.PurePosixPath]) *)

Definition path_component (s : string) : bool :=
  negb (String.eqb s EmptyString || String.eqb s ".").

(** [Path(p).name]: the last component, empty and [.] components dropped. *)
Definition Path_name (p : string) : string :=
  last (filter path_component (str_split "/" p)) EmptyString.

(** [Path(p).suffix]: from the last dot of the name on, when that dot is
    neither the first nor the last character of the name. *)
Definition Path_suffix (p : string) : string :=
  let name := Path_name p in
  match str_rfind "." name with
  | Some i =>
      if (Nat.ltb 0 i && Nat.ltb i (String.length name - 1))%bool
      then String.substring i (String.length name - i) name
      else EmptyString
  | None => EmptyString
  end.

(** [os.path.join(a, b)] for a relative [b]. *)
Definition os_path_join (a b : string) : string :=
  match a with
  | EmptyString => b
  | _ => if String.eqb (String.substring (String.length a - 1) 1 a) "/"
         then a ++ b else a ++ "/" ++ b
  end.

(** *** Truthiness defaults: [x or d] *)

Definition int_or (x : option Z) (d : Z) : Z :=
  match x with
  | Some v => if v =? 0 then d else v
  | None => d
  end.

(** *** binary64 *)

Definition float := spec_float.
Definition prec : Z := 53.
Definition emax : Z := 1024.

Definition float_is_zero (f : float) : bool :=
  match f with S754_zero _ => true | _ => false end.

Definition float_or (x : option float) (d : float) : float :=
  match x with
  | Some v => if float_is_zero v then d else v
  | None => d
  end.

Definition overflowed (f : float) : bool :=
  match f with S754_infinity _ => true | _ => false end.

(** [float(n)] for an integer: nearest binary64, [OverflowError] beyond. *)
Definition float_of_int (n : Z) : result float :=
  let f := binary_normalize prec emax n 0 false in
  if overflowed f then raise OverflowError "int too large to convert to float"
  else Ok f.

(** [a / b] on integers: the correctly rounded quotient. *)
Definition int_truediv (a b : Z) : result float :=
  if b =? 0 then raise ZeroDivisionError "division by zero"
  else
    let lift n := match n with
                  | Z0 => S754_zero false
                  | Zpos p => S754_finite false p 0
                  | Zneg p => S754_finite true p 0
                  end in
    let q := SFdiv prec emax (lift a) (lift b) in
    if overflowed q
    then raise OverflowError "integer division result too large for a float"
    else Ok q.

(** A Python number that is a float or has left the reals. *)
Inductive number :=
| Real (f : float)
| Complex.

(** 0.5 and 1.0 *)
Definition half : float := S754_finite false 4503599627370496 (-53).
Definition one : float := S754_finite false 4503599627370496 (-52).

(** [x ** 0.5] as the interpreter's [float_pow] computes it.  The special
    cases are decided there: NaN stays NaN, an infinity gives +inf, a zero
    gives +0.0, a negative number gives a complex number, 1.0 gives 1.0.
    Every other [x] is handed to the platform's [pow], which is not
    correctly rounded in general and is therefore passed in. *)
Definition pow_half (libm_pow : float -> float -> float) (x : float)
  : number :=
  match x with
  | S754_nan => Real S754_nan
  | S754_infinity _ => Real (S754_infinity false)
  | S754_zero _ => Real (S754_zero false)
  | S754_finite true _ _ => Complex
  | S754_finite false _ _ =>
      if SFeqb x one then Real one else Real (libm_pow x half)
  end.

(** [n * x] for an integer [n]. *)
Definition int_mul (n : Z) (x : number) : result number :=
  match x with
  | Real f => bind (float_of_int n) (fun nf => Ok (Real (SFmul prec emax nf f)))
  | Complex => bind (float_of_int n) (fun _ => Ok Complex)
  end.

(** [int(x)]: truncation toward zero. *)
Definition int_of (x : number) : result Z :=
  match x with
  | Complex =>
      raise TypeError
        "int() argument must be a string, a bytes-like object or a real number, not 'complex'"
  | Real S754_nan => raise ValueError "cannot convert float NaN to integer"
  | Real (S754_infinity _) =>
      raise OverflowError "cannot convert float infinity to integer"
  | Real (S754_zero _) => Ok 0
  | Real (S754_finite s m e) =>
      let a := if 0 <=? e then Z.pos m * 2 ^ e else Z.pos m / 2 ^ (- e) in
      Ok (if s then - a else a)
  end.

End Py.

Notation "x <- c1 ;; c2" := (Py.bind c1 (fun x => c2))
  (at level 61, c1 at next level, right associativity).

(* ================================================================== *)
(** ** core/config.py                                                  *)
(* ================================================================== *)

Module Config.
Import Py.

Record Settings := {
  model_path : string;
  device : string;
  dtype : string;
  host : string;
  port : Z;
  workers : Z;
  reload : bool;
  default_num_frames : Z;
  default_num_inference_steps : Z;
  default_guidance_scale : float;
  default_max_area : Z;
  max_file_size : Z;
  allowed_extensions : list string;
  log_level : string;
  log_file : option string;
  output_dir : string;
  temp_dir : string;
  cleanup_temp_files : bool;
  (* the two fields of the authenticated variant's settings *)
  require_auth : bool;
  api_token : option string
}.

(** What the environment may give for [allowed_extensions]. *)
Inductive extensions_input :=
| ExtString (s : string)
| ExtList (l : list string).

Definition parse_allowed_extensions (v : extensions_input) : list string :=
  match v with
  | ExtString s => map str_strip (str_split "," s)
  | ExtList l => l
  end.

(** Modelled from the spec: [Settings.get_allowed_extensions_list] of the
    authenticated variant's [core/config.py], which is not among the
    sources; it gives the allow-list as normalized to a list by
    [parse_allowed_extensions]. *)
Definition get_allowed_extensions_list (settings : Settings) : list string :=
  allowed_extensions settings.

(** 5.0 *)
Definition five : float := S754_finite false 5629499534213120 (-50).

Definition default_settings : Settings := {|
  model_path :=
    "/home/chenyu/.cache/modelscope/hub/models/Wan-AI/Wan2___2-TI2V-5B-Diffusers";
  device := "cuda";
  dtype := "bfloat16";
  host := "0.0.0.0";
  port := 8000;
  workers := 1;
  reload := true;
  default_num_frames := 121;
  default_num_inference_steps := 50;
  default_guidance_scale := five;
  default_max_area := 901120;
  max_file_size := 50000000;
  allowed_extensions := ["jpg"; "jpeg"; "png"; "webp"; "bmp"];
  log_level := "INFO";
  log_file := Some "logs/wan_video_api.log";
  output_dir := "outputs";
  temp_dir := "/tmp";
  cleanup_temp_files := true;
  require_auth := false;
  api_token := None
|}.

(** The default settings with another allow-list and size limit. *)
Definition with_limits (exts : list string) (limit : Z) : Settings := {|
  model_path := model_path default_settings;
  device := device default_settings;
  dtype := dtype default_settings;
  host := host default_settings;
  port := port default_settings;
  workers := workers default_settings;
  reload := reload default_settings;
  default_num_frames := default_num_frames default_settings;
  default_num_inference_steps := default_num_inference_steps default_settings;
  default_guidance_scale := default_guidance_scale default_settings;
  default_max_area := default_max_area default_settings;
  max_file_size := limit;
  allowed_extensions := parse_allowed_extensions (ExtList exts);
  log_level := log_level default_settings;
  log_file := log_file default_settings;
  output_dir := output_dir default_settings;
  temp_dir := temp_dir default_settings;
  cleanup_temp_files := cleanup_temp_files default_settings;
  require_auth := require_auth default_settings;
  api_token := api_token default_settings
|}.

End Config.

(* ================================================================== *)
(** ** utils/file_utils.py                                             *)
(* ================================================================== *)

Module FileUtils.
Import Py Config.

(** The [size] attribute of an upload: missing, [None], or an integer. *)
Inductive size_attr :=
| SizeMissing
| SizeNone
| SizeInt (n : Z).

Record UploadFile := {
  filename : option string;
  size : size_attr;
  content : string
}.

(** An upload with no content, for examples. *)
Definition upload (name : option string) (sz : size_attr) : UploadFile :=
  {| filename := name; size := sz; content := "" |}.

(** [hasattr(file, 'size') and file.size and file.size > max_file_size] *)
Definition size_too_large (file : UploadFile) (settings : Settings) : bool :=
  match size file with
  | SizeInt n => negb (n =? 0) && (n >? max_file_size settings)
  | SizeMissing | SizeNone => false
  end.

(** [Path(name).suffix.lower().lstrip('.')] *)
Definition file_ext (name : string) : string :=
  lstrip_char "." (str_lower (Path_suffix name)).

Definition validate_image_file (file : UploadFile) (settings : Settings)
  : result unit :=
  if size_too_large file settings then
    raise ValueError
      ("File size "
         ++ match size file with SizeInt n => str_of_Z n | _ => "None" end
         ++ " exceeds maximum allowed size "
         ++ str_of_Z (max_file_size settings))
  else
    match filename file with
    | Some name =>
        if truthy_str name then
          let allowed_exts := get_allowed_extensions_list settings in
          if negb (str_in (file_ext name) allowed_exts) then
            raise ValueError
              ("File extension '" ++ file_ext name
                 ++ "' not allowed. Allowed extensions: "
                 ++ repr_str_list allowed_exts)
          else Ok tt
        else Ok tt
    | None => Ok tt
    end.

(** *** The file system as [list_output_files] sees it *)

Inductive entry_kind := RegularFile | Directory | OtherEntry.

(** Timestamps are only compared; they are kept as integers that respect
    the order of the floats [stat] reports. *)
Record dir_entry := {
  entry_name : string;
  entry_kind_of : entry_kind;
  st_size : Z;
  st_ctime : Z;
  st_mtime : Z
}.

Inductive fs_node :=
| Missing
| NotDir
| Dir (entries : list dir_entry).

Definition is_file (e : dir_entry) : bool :=
  match entry_kind_of e with RegularFile => true | _ => false end.

(** The dict appended for a file. *)
Record file_info := {
  info_filename : string;
  info_size : Z;
  info_created : Z;
  info_modified : Z
}.

Definition info_of (e : dir_entry) : file_info := {|
  info_filename := entry_name e;
  info_size := st_size e;
  info_created := st_ctime e;
  info_modified := st_mtime e
|}.

(** [sorted(files, key=..., reverse=True)]: stable, largest key first. *)
Fixpoint insert_desc (key : file_info -> Z) (x : file_info)
         (l : list file_info) : list file_info :=
  match l with
  | [] => [x]
  | y :: l' =>
      if key x <? key y then y :: insert_desc key x l' else x :: l
  end.

Fixpoint sorted_desc (key : file_info -> Z) (l : list file_info)
  : list file_info :=
  match l with
  | [] => []
  | x :: l' => insert_desc key x (sorted_desc key l')
  end.

(** The order of a list sorted with [reverse=True]: largest key first. *)
Definition descending (key : file_info -> Z) (a b : file_info) : Prop :=
  key b <= key a.

Definition list_output_files (fs : string -> fs_node) (output_dir : string)
  : result (list file_info) :=
  files <-
    match fs output_dir with
    | Missing => Ok []
    | NotDir => raise NotADirectoryError output_dir
    | Dir entries => Ok (map info_of (filter is_file entries))
    end ;;
  Ok (sorted_desc info_created files).

End FileUtils.

(* ================================================================== *)
(** ** models/wan_model.py                                             *)
(* ================================================================== *)

Module WanModel.
Import Py Config.

(** A decoded image: its mode and [size = (width, height)]. *)
Record Image := {
  mode : string;
  width : Z;
  height : Z
}.

Definition convert (img : Image) (m : string) : Image :=
  {| mode := m; width := width img; height := height img |}.

(** [image.resize((w, h), LANCZOS)]: the image library refuses a size with
    a side below 1 and otherwise gives an image of the requested size. *)
Definition resize (img : Image) (w h : Z) : result Image :=
  if ((w <? 1) || (h <? 1))%bool
  then raise ValueError "height and width must be > 0"
  else Ok {| mode := mode img; width := w; height := h |}.

Inductive image_arg :=
| ByString (s : string)
| ByImage (img : Image).

(** A generated frame sequence (contents are opaque here). *)
Definition ndarray := list Z.

Record PipeArgs := {
  pa_image : option Image;
  pa_prompt : string;
  pa_negative_prompt : string;
  pa_height : Z;
  pa_width : Z;
  pa_num_frames : Z;
  pa_guidance_scale : float;
  pa_num_inference_steps : Z
}.

(** The loaded diffusion pipeline: called with keyword arguments, it gives
    the [frames] of its output or raises. *)
Definition Pipeline := PipeArgs -> result (list ndarray).

(** The path [Path(dir) / name]. *)
Record out_path := { in_dir : string; file_name : string }.

(** What the process reaches outside itself. *)
Record World := {
  requests_get_image : string -> result Image;
  Image_open_path : string -> result Image;
  Image_open_bytes : string -> result Image;
  export_to_video : ndarray -> out_path -> Z -> result unit;
  mkdir_parents : string -> result unit;
  uuid4_hex : string;
  cuda_is_available : bool;
  libm_pow : float -> float -> float
}.

(** Calls that leave the calling component, in the order they happen. *)
Inductive event :=
| EngineCalled (operation : string)
| PipelineCalled (args : PipeArgs)
| ExportCalled (path : out_path) (fps : Z)
| MkdirCalled (dir : string).

(** A world with nothing behind it, for running the code on examples; its
    [pow] is only ever asked for the exponent 0.5 and gives the correctly
    rounded square root. *)
Definition bare_world : World := {|
  requests_get_image := fun _ => raise OtherException "no network";
  Image_open_path := fun p => raise FileNotFoundError p;
  Image_open_bytes := fun _ => raise OtherException "cannot identify image file";
  export_to_video := fun _ _ _ => Ok tt;
  mkdir_parents := fun _ => Ok tt;
  uuid4_hex := "0123456789abcdef0123456789abcdef";
  cuda_is_available := false;
  libm_pow := fun x _ => SFsqrt prec emax x
|}.

Definition pipeline_call (e : event) : bool :=
  match e with PipelineCalled _ => true | _ => false end.

Definition engine_call (e : event) : bool :=
  match e with EngineCalled _ => true | _ => false end.

(** Computations that leave a trace and may raise. *)
Definition M (A : Type) : Type := list event * result A.

Definition ret {A} (a : A) : M A := ([], Ok a).
Definition throw {A} (c : exn_class) (msg : string) : M A := ([], raise c msg).
Definition lift {A} (r : result A) : M A := ([], r).
Definition emit (e : event) : M unit := ([e], Ok tt).

Definition bindM {A B} (c : M A) (k : A -> M B) : M B :=
  match c with
  | (t, Ok a) => let (t', r) := k a in ((t ++ t')%list, r)
  | (t, Raise e) => (t, Raise e)
  end.

(** [try: c  except Exception as e: h e] *)
Definition try_except {A} (c : M A) (h : exn -> M A) : M A :=
  match c with
  | (t, Raise e) =>
      if is_Exception (exn_cls e)
      then let (t', r) := h e in ((t ++ t')%list, r)
      else (t, Raise e)
  | _ => c
  end.

End WanModel.

Notation "x <~ c1 ;; c2" := (WanModel.bindM c1 (fun x => c2))
  (at level 61, c1 at next level, right associativity).
Notation "c1 ;;; c2" := (WanModel.bindM c1 (fun _ => c2))
  (at level 61, right associativity).

Module ImageProcessor.
Import Py Config WanModel.

(** [int(dim * scale_factor)] *)
Definition scaled (dim : Z) (scale_factor : number) : result Z :=
  x <- int_mul dim scale_factor ;; int_of x.

(** [(n // 8) * 8] *)
Definition floor8 (n : Z) : Z := (n / 8) * 8.

(** The image [__call__] works on: a string is fetched or opened first. *)
Definition load (W : World) (image : image_arg) : result Image :=
  match image with
  | ByString s =>
      if (str_startswith "http://" s || str_startswith "https://" s)%bool
      then requests_get_image W s
      else Image_open_path W s
  | ByImage img => Ok img
  end.

(** [ImageProcessor.__call__(image, max_area)] *)
Definition call (W : World) (image : image_arg) (max_area : Z)
  : result Image :=
  image <- load W image ;;
  let image :=
    if negb (String.eqb (mode image) "RGB") then convert image "RGB"
    else image in
  let original_width := width image in
  let original_height := height image in
  let original_area := original_width * original_height in
  if original_area >? max_area then
    ratio <- int_truediv max_area original_area ;;
    let scale_factor := pow_half (libm_pow W) ratio in
    new_width <- scaled original_width scale_factor ;;
    new_height <- scaled original_height scale_factor ;;
    let new_width := floor8 new_width in
    let new_height := floor8 new_height in
    resize image new_width new_height
  else
    let new_width := floor8 original_width in
    let new_height := floor8 original_height in
    if (negb (new_width =? original_width)
        || negb (new_height =? original_height))%bool
    then resize image new_width new_height
    else Ok image.

End ImageProcessor.

Module Engine.
Import Py Config WanModel.

Inductive torch_dtype := bfloat16 | float16 | float32.

Record WanVideoModel := {
  pipe : option Pipeline;
  image_processor : option unit;
  device : string;
  dtype : torch_dtype
}.

(** [WanVideoModel.__init__] *)
Definition init (W : World) (settings : Settings) : WanVideoModel := {|
  pipe := None;
  image_processor := None;
  device := if cuda_is_available W then Config.device settings else "cpu";
  dtype := if String.eqb (Config.dtype settings) "bfloat16" then bfloat16
           else if String.eqb (Config.dtype settings) "float16" then float16
           else float32
|}.

Definition is_loaded (self : WanVideoModel) : bool :=
  match pipe self, image_processor self with
  | Some _, Some _ => true
  | _, _ => false
  end.

Definition not_callable {A} : M A :=
  throw TypeError "'NoneType' object is not callable".

(** [frames[0]] *)
Definition first_frames (frames : list ndarray) : result ndarray :=
  match frames with
  | f :: _ => Ok f
  | [] => raise IndexError "list index out of range"
  end.

Definition generate_video (W : World) (self : WanVideoModel)
           (image : Image) (prompt negative_prompt : string)
           (num_frames num_inference_steps : Z) (guidance_scale : float)
           (max_area : Z) : M ndarray :=
  emit (EngineCalled "generate_video") ;;;
  if negb (is_loaded self) then throw RuntimeError "Model not loaded"
  else
    try_except
      (processed_image <~
         match image_processor self with
         | Some _ => lift (ImageProcessor.call W (ByImage image) max_area)
         | None => not_callable
         end ;;
       let height := height processed_image in
       let width := width processed_image in
       let args := {|
         pa_image := Some processed_image;
         pa_prompt := prompt;
         pa_negative_prompt := negative_prompt;
         pa_height := height;
         pa_width := width;
         pa_num_frames := num_frames;
         pa_guidance_scale := guidance_scale;
         pa_num_inference_steps := num_inference_steps
       |} in
       frames <~
         match pipe self with
         | Some p => emit (PipelineCalled args) ;;; lift (p args)
         | None => not_callable
         end ;;
       lift (first_frames frames))
      (fun e => lift (Raise e)).

Definition export_video (W : World) (self : WanVideoModel)
           (frames : ndarray) (output_path : out_path) (fps : Z) : M unit :=
  emit (EngineCalled "export_video") ;;;
  try_except
    (emit (ExportCalled output_path fps) ;;;
     lift (export_to_video W frames output_path fps))
    (fun e => lift (Raise e)).

(** The attributes an instance of [WanVideoModel] has: those set by
    [__init__] and the methods of the class. *)
Definition attributes : list string :=
  ["settings"; "logger"; "pipe"; "image_processor"; "device"; "dtype";
   "load_model"; "is_loaded"; "generate_video"; "export_video"].

(** [getattr(model, name)]: only whether the lookup succeeds. *)
Definition getattr (name : string) : result string :=
  if str_in name attributes then Ok name
  else raise AttributeError
         ("'WanVideoModel' object has no attribute '" ++ name ++ "'").

End Engine.

(* ================================================================== *)
(** ** wan_video_api/api/routes.py                                     *)
(* ================================================================== *)

Module Routes.
Import Py Config FileUtils WanModel Engine.

Definition default_negative_prompt : string :=
  "色调艳丽，过曝，静态，细节模糊不清，字幕，风格，作品，画作，画面，静止，整体发灰，最差质量，低质量，JPEG压缩残留，丑陋的，残缺的，多余的手指，画得不好的手部，画得不好的脸部，畸形的，毁容的，形态畸形的肢体，手指融合，静止不动的画面，杂乱的背景，三条腿，背景人很多，倒着走".

(** The multipart form of [POST /generate_video]; [None] is an omitted
    field. *)
Record ImageForm := {
  image : UploadFile;
  prompt : string;
  negative_prompt : option string;
  num_frames : option Z;
  num_inference_steps : option Z;
  guidance_scale : option float;
  max_area : option Z
}.

(** The form of [POST /generate_video_from_text]. *)
Record TextForm := {
  t_prompt : string;
  t_negative_prompt : option string;
  t_num_frames : option Z;
  t_num_inference_steps : option Z;
  t_guidance_scale : option float;
  t_height : option Z;
  t_width : option Z
}.

(** [Form(default=d)] *)
Definition form_default {A} (x : option A) (d : A) : A :=
  match x with Some v => v | None => d end.

Record FileResponse := {
  path : out_path;
  media_type : string;
  filename : string;
  headers : list (string * string)
}.

(** How a handler ends: a response (status 200), an [HTTPException], or an
    exception nobody in the handler caught. *)
Inductive outcome :=
| Respond (r : FileResponse)
| HTTPException (status_code : Z) (detail : string)
| Unhandled (e : exn).

Definition status_of (o : outcome) : Z :=
  match o with
  | Respond _ => 200
  | HTTPException s _ => s
  | Unhandled _ => 500
  end.

(** The tail both handlers share: name the file, make the directory,
    export, answer with the file. *)
Definition export_and_respond (W : World) (model : WanVideoModel)
           (settings : Settings) (prefix : string) (output_frames : ndarray)
  : M FileResponse :=
  let output_filename := prefix ++ uuid4_hex W ++ ".mp4" in
  let output_dir := output_dir settings in
  emit (MkdirCalled output_dir) ;;;
  lift (mkdir_parents W output_dir) ;;;
  let output_path := {| in_dir := output_dir; file_name := output_filename |} in
  export_video W model output_frames output_path 24 ;;;
  ret {| path := output_path;
         media_type := "video/mp4";
         filename := output_filename;
         headers := [("Content-Disposition",
                      "attachment; filename=" ++ output_filename)] |}.

(** [try: body  except Exception as e: raise HTTPException(500, msg + str(e))] *)
Definition guard_500 (msg : string) (body : M FileResponse)
  : list event * outcome :=
  match body with
  | (t, Ok r) => (t, Respond r)
  | (t, Raise e) =>
      if is_Exception (exn_cls e)
      then (t, HTTPException 500 (msg ++ exn_msg e))
      else (t, Unhandled e)
  end.

Definition generate_video (W : World) (model : WanVideoModel)
           (settings : Settings) (form : ImageForm) : list event * outcome :=
  let negative_prompt :=
    form_default (negative_prompt form) default_negative_prompt in
  if negb (is_loaded model) then ([], HTTPException 503 "Model not loaded")
  else
    match validate_image_file (image form) settings with
    | Raise e =>
        if is_ValueError (exn_cls e) then ([], HTTPException 400 (exn_msg e))
        else ([], Unhandled e)
    | Ok _ =>
        let num_frames :=
          int_or (num_frames form) (default_num_frames settings) in
        let num_inference_steps :=
          int_or (num_inference_steps form)
                 (default_num_inference_steps settings) in
        let guidance_scale :=
          float_or (guidance_scale form) (default_guidance_scale settings) in
        let max_area := int_or (max_area form) (default_max_area settings) in
        guard_500 "Error generating video: "
          (let image_data := content (image form) in
           pil_image <~ lift (Image_open_bytes W image_data) ;;
           output_frames <~
             Engine.generate_video W model pil_image (prompt form)
               negative_prompt num_frames num_inference_steps
               guidance_scale max_area ;;
           export_and_respond W model settings "generated_video_"
             output_frames)
    end.

(** The keyword arguments the text route passes to the engine. *)
Record TextKwargs := {
  k_prompt : string;
  k_negative_prompt : string;
  k_num_frames : Z;
  k_num_inference_steps : Z;
  k_guidance_scale : float;
  k_height : Z;
  k_width : Z
}.

(** Calling an attribute of the engine with the keyword arguments of the
    text route: no attribute of the class takes [height] and [width]. *)
Definition call_with_text_kwargs (attribute : string) (kwargs : TextKwargs)
  : M ndarray :=
  throw TypeError
    (attribute ++ "() got an unexpected keyword argument 'height'").

Definition generate_video_from_text (W : World) (model : WanVideoModel)
           (settings : Settings) (form : TextForm) : list event * outcome :=
  let negative_prompt :=
    form_default (t_negative_prompt form) default_negative_prompt in
  let height := form_default (t_height form) 720 in
  let width := form_default (t_width form) 1280 in
  if negb (is_loaded model) then ([], HTTPException 503 "Model not loaded")
  else
    let num_frames :=
      int_or (t_num_frames form) (default_num_frames settings) in
    let num_inference_steps :=
      int_or (t_num_inference_steps form)
             (default_num_inference_steps settings) in
    let guidance_scale :=
      float_or (t_guidance_scale form) (default_guidance_scale settings) in
    guard_500 "Error generating video from text: "
      (method <~ lift (Engine.getattr "generate_video_from_text") ;;
       output_frames <~
         call_with_text_kwargs method
           {| k_prompt := t_prompt form;
              k_negative_prompt := negative_prompt;
              k_num_frames := num_frames;
              k_num_inference_steps := num_inference_steps;
              k_guidance_scale := guidance_scale;
              k_height := height;
              k_width := width |} ;;
       export_and_respond W model settings "generated_video_text_"
         output_frames).

End Routes.

(* ================================================================== *)
(** ** gczm_ti_to_video/api/routes.py                                  *)
(* ================================================================== *)

Module AuthRoutes.
Import Py Config.

Record HTTPAuthorizationCredentials := {
  scheme : string;
  credentials : string
}.

(** How the [user] dependency of a route resolves. *)
Inductive resolved (A : Type) :=
| Resolved (a : A)
| Rejected (status_code : Z) (detail : string).
Arguments Resolved {A} a.
Arguments Rejected {A} status_code detail.

(** [s.partition(" ")]: the parts before and after the first space. *)
Fixpoint partition_space (s : string) : string * string :=
  match s with
  | EmptyString => (EmptyString, EmptyString)
  | String a s' =>
      if Ascii.eqb a " " then (EmptyString, s')
      else let (h, t) := partition_space s' in (String a h, t)
  end.

(** The framework's [get_authorization_scheme_param]. *)
Definition get_authorization_scheme_param (authorization : option string)
  : string * string :=
  match authorization with
  | Some v => if truthy_str v then partition_space v else ("", "")
  | None => ("", "")
  end.

(** The framework's bearer scheme.  [auto_error] is its constructor's
    keyword, [True] unless given.  The status it answers a request without
    usable credentials with is the framework's (403 in the releases before
    0.122, 401 from then on) and is kept as a parameter. *)
Record HTTPBearer := { auto_error : bool }.

Definition HTTPBearer_call (unauthenticated_status : Z) (self : HTTPBearer)
           (authorization : option string)
  : resolved (option HTTPAuthorizationCredentials) :=
  let (scheme, credentials) := get_authorization_scheme_param authorization in
  let present :=
    match authorization with
    | Some v => truthy_str v && truthy_str scheme && truthy_str credentials
    | None => false
    end in
  if negb present then
    if auto_error self then Rejected unauthenticated_status "Not authenticated"
    else Resolved None
  else if negb (String.eqb (str_lower scheme) "bearer") then
    if auto_error self
    then Rejected unauthenticated_status "Invalid authentication credentials"
    else Resolved None
  else Resolved (Some {| scheme := scheme; credentials := credentials |}).

(** [security = HTTPBearer()] *)
Definition security : HTTPBearer := {| auto_error := true |}.

Definition truthy_token (t : option string) : bool :=
  match t with Some s => truthy_str s | None => false end.

(** The body of [verify_api_token], given what [Depends(security)]
    resolved to. *)
Definition verify_api_token_body (settings : Settings)
           (credentials : option HTTPAuthorizationCredentials)
  : resolved string :=
  if negb (require_auth settings) then Resolved "anonymous"
  else
    match credentials with
    | None => Rejected 401 "Missing authorization token"
    | Some c =>
        if negb (truthy_token (api_token settings))
        then Rejected 500 "API token not configured on server"
        else if negb (match api_token settings with
                      | Some t => String.eqb (AuthRoutes.credentials c) t
                      | None => false
                      end)
        then Rejected 401 "Invalid authorization token"
        else Resolved "authenticated_user"
    end.

(** [verify_api_token] as a dependency: its own dependency [security] is
    resolved first, on the request's [Authorization] header. *)
Definition verify_api_token (unauthenticated_status : Z)
           (settings : Settings) (authorization : option string)
  : resolved string :=
  match HTTPBearer_call unauthenticated_status security authorization with
  | Rejected s d => Rejected s d
  | Resolved credentials => verify_api_token_body settings credentials
  end.

Inductive route :=
| Health
| GenerateVideo
| GenerateVideoFromText
| ModelInfo
| ModelReload.

(** Whether the handler has [user: str = Depends(verify_api_token)]. *)
Definition protected (r : route) : bool :=
  match r with
  | Health | GenerateVideo | GenerateVideoFromText
  | ModelInfo | ModelReload => true
  end.

(** What a request to [r] gets for [user] before the handler runs;
    [Resolved None] for a route without the dependency. *)
Definition resolve_user (unauthenticated_status : Z) (settings : Settings)
           (r : route) (authorization : option string)
  : resolved (option string) :=
  if protected r then
    match verify_api_token unauthenticated_status settings authorization with
    | Resolved u => Resolved (Some u)
    | Rejected s d => Rejected s d
    end
  else Resolved None.

(** [POST /generate_video]: the dependency, then a handler body that is
    line for line the open variant's.  The engine module of this variant
    is not among the sources; the body runs against the same engine. *)
Definition generate_video (unauthenticated_status : Z)
           (W : WanModel.World) (model : Engine.WanVideoModel)
           (settings : Settings) (authorization : option string)
           (form : Routes.ImageForm)
  : list WanModel.event * Routes.outcome :=
  match verify_api_token unauthenticated_status settings authorization with
  | Rejected s d => ([], Routes.HTTPException s d)
  | Resolved user => Routes.generate_video W model settings form
  end.

End AuthRoutes.

(* ================================================================== *)
(** ** scripts/start_server.py                                         *)
(* ================================================================== *)

Module Launcher.
Import Py Config.

(** What importing a package can do: succeed, raise [ImportError], or
    raise some other [Exception]. *)
Inductive import_outcome :=
| Imported
| ImportFailed
| ImportCrashed (msg : string).

(** What the GPU probe inside [check_gpu] can do; what it raises is an
    [Exception] and is caught there. *)
Inductive gpu_probe :=
| ProbeRaised (msg : string)
| NoGpu
| Gpu (name : string) (count : Z) (total_memory : Z).

(** How [subprocess.run] ends: the server process returns (with whatever
    return code), the user interrupts, or starting it raises an
    [Exception]. *)
Inductive run_outcome :=
| ServerReturned (returncode : Z)
| Interrupted
| RunRaised (msg : string).

Record Env := {
  import_package : string -> import_outcome;
  path_exists : string -> bool;
  probe_gpu : gpu_probe;
  subprocess_run : list string -> run_outcome;
  sys_executable : string
}.

Record Args := {
  host : string;
  port : Z;
  workers : Z;
  no_reload : bool;
  skip_checks : bool
}.

Definition check_model_path (env : Env) (model_path : string) : bool :=
  if negb (path_exists env model_path) then false
  else
    let required_files := ["model_index.json"] in
    if negb (forallb (fun file => path_exists env (os_path_join model_path file))
                     required_files)
    then false
    else
      let config_files := ["config.json"; "configuration.json"] in
      let config_found :=
        existsb (fun config_file =>
                   path_exists env (os_path_join model_path config_file))
                config_files in
      if negb config_found then false else true.

Definition required_packages : list string :=
  ["fastapi"; "uvicorn"; "torch"; "diffusers"; "transformers"; "PIL";
   "loguru"; "pydantic"].

(** The loop of [check_dependencies]: the packages that raised
    [ImportError], or the exception that escaped the loop. *)
Fixpoint missing_among (env : Env) (packages : list string)
  : result (list string) :=
  match packages with
  | [] => Ok []
  | package :: rest =>
      match import_package env package with
      | Imported => missing_among env rest
      | ImportFailed =>
          missing <- missing_among env rest ;; Ok (package :: missing)
      | ImportCrashed msg => raise OtherException msg
      end
  end.

Definition is_imported (o : import_outcome) : bool :=
  match o with Imported => true | _ => false end.

Definition check_dependencies (env : Env) : result bool :=
  missing_packages <- missing_among env required_packages ;;
  match missing_packages with
  | [] => Ok true
  | _ => Ok false
  end.

Definition check_gpu (env : Env) : bool :=
  match probe_gpu env with
  | Gpu _ _ _ => true
  | NoGpu => false
  | ProbeRaised _ => false
  end.

Definition str_of_bool_lower (b : bool) : string :=
  if b then "true" else "false".

(** The command [start_server] builds. *)
Definition server_command (env : Env) (host : string) (port workers : Z)
           (reload : bool) : list string :=
  let cmd := [sys_executable env; "-m"; "uvicorn"; "wan_video_api.main:app";
              "--host"; host; "--port"; str_of_Z port] in
  if reload then (cmd ++ ["--reload"])%list
  else (cmd ++ ["--workers"; str_of_Z workers])%list.

(** The environment variables [start_server] sets. *)
Definition server_environ (host : string) (port workers : Z) (reload : bool)
  : list (string * string) :=
  [("HOST", host); ("PORT", str_of_Z port); ("WORKERS", str_of_Z workers);
   ("RELOAD", str_of_bool_lower reload)].

(** [start_server]: [KeyboardInterrupt] and every [Exception] are caught. *)
Definition start_server (env : Env) (host : string) (port workers : Z)
           (reload : bool) : result unit :=
  match subprocess_run env (server_command env host port workers reload) with
  | ServerReturned _ => Ok tt
  | Interrupted => Ok tt
  | RunRaised _ => Ok tt
  end.

Definition sys_exit {A} (code : Z) : result A := raise (SystemExit code) "".

Definition main (env : Env) (settings : Settings) (args : Args)
  : result unit :=
  _ <- (if negb (skip_checks args) then
          deps <- check_dependencies env ;;
          if negb deps then sys_exit 1
          else if negb (check_model_path env (model_path settings))
          then sys_exit 1
          else let _ := check_gpu env in Ok tt
        else Ok tt) ;;
  start_server env (host args) (port args) (workers args)
               (negb (no_reload args)).

(** The exit status of the interpreter running [main()]. *)
Definition exit_code (r : result unit) : Z :=
  match r with
  | Ok _ => 0
  | Raise e =>
      match exn_cls e with
      | SystemExit code => code
      | _ => 1
      end
  end.

End Launcher.

(* ================================================================== *)
(** ** More of [pathlib]                                               *)
(* ================================================================== *)

Module PurePath.
Import Py.

Fixpoint leading_slashes (s : string) : nat :=
  match s with
  | String a s' => if Ascii.eqb a "/" then S (leading_slashes s') else O
  | EmptyString => O
  end.

(** The root of a POSIX path: none, ["//"] for exactly two leading slashes,
    ["/"] otherwise. *)
Definition root (p : string) : string :=
  match leading_slashes p with
  | O => EmptyString
  | 2%nat => "//"
  | _ => "/"
  end.

(** The components after the root; empty and [.] components are dropped. *)
Definition parts (p : string) : list string :=
  filter path_component (str_split "/" p).

Definition format (rt : string) (ps : list string) : string :=
  match rt, ps with
  | EmptyString, [] => "."
  | _, _ => rt ++ str_join "/" ps
  end.

(** [str(Path(p))] *)
Definition to_str (p : string) : string := format (root p) (parts p).

(** [str(Path(p).parent)] *)
Definition parent (p : string) : string := format (root p) (removelast (parts p)).

End PurePath.

(* ================================================================== *)
(** ** models/wan_model.py: loading                                    *)
(* ================================================================== *)

Module Loading.
Import Py Config WanModel Engine.

(** The variational encoder/decoder handed to the pipeline (opaque). *)
Inductive Vae := VaeHandle (id : Z).

(** The model directory and the diffusion library, as [load_model] uses
    them. *)
Record Loader := {
  model_dir_exists : string -> bool;
  vae_from_pretrained : string -> result Vae;
  pipeline_from_pretrained : string -> Vae -> torch_dtype -> result Pipeline;
  enable_sequential_cpu_offload : Pipeline -> result unit
}.

Definition set_pipe (self : WanVideoModel) (p : Pipeline) : WanVideoModel :=
  {| pipe := Some p; image_processor := image_processor self;
     device := device self; dtype := dtype self |}.

Definition set_image_processor (self : WanVideoModel) : WanVideoModel :=
  {| pipe := pipe self; image_processor := Some tt;
     device := device self; dtype := dtype self |}.

(** [WanVideoModel.load_model]: the engine as the call leaves it, and how the
    call ends.  The [except] clause logs and re-raises, so an exception
    leaves the attributes as they were when it was raised. *)
Definition load_model (W : World) (L : Loader) (settings : Settings)
           (self : WanVideoModel) : WanVideoModel * result unit :=
  let model_path := model_path settings in
  if negb (model_dir_exists L model_path) then
    (self, raise FileNotFoundError
             ("Model path does not exist: " ++ PurePath.to_str model_path))
  else
    match vae_from_pretrained L (PurePath.to_str model_path) with
    | Raise e => (self, Raise e)
    | Ok vae =>
        match pipeline_from_pretrained L (PurePath.to_str model_path) vae
                                       (dtype self) with
        | Raise e => (self, Raise e)
        | Ok p =>
            let self := set_pipe self p in
            match (if (cuda_is_available W
                       && negb (String.eqb (device self) "cpu"))%bool
                   then enable_sequential_cpu_offload L p
                   else Ok tt) with
            | Raise e => (self, Raise e)
            | Ok _ => (set_image_processor self, Ok tt)
            end
        end
    end.

End Loading.

(* ================================================================== *)
(** ** main.py, config.ensure_directories, the reload route             *)
(* ================================================================== *)

Module App.
Import Py Config WanModel Engine Loading.

(** [ensure_directories]: the output directory and the parent of the log
    file, each when truthy. *)
Definition ensure_directories (W : World) (settings : Settings) : M unit :=
  let directories :=
    [ (if truthy_str (output_dir settings) then Some (output_dir settings)
       else None);
      match log_file settings with
      | Some f => if truthy_str f then Some (PurePath.parent f) else None
      | None => None
      end ] in
  fold_right
    (fun directory rest =>
       match directory with
       | Some d => emit (MkdirCalled d) ;;; lift (mkdir_parents W d) ;;; rest
       | None => rest
       end)
    (ret tt) directories.

(** The startup half of [lifespan]: directories, then the load, whose
    [Exception]s are logged and dropped. *)
Definition startup (W : World) (L : Loader) (settings : Settings)
           (model : WanVideoModel)
  : WanVideoModel * (list event * result unit) :=
  match ensure_directories W settings with
  | (t, Raise e) => (model, (t, Raise e))
  | (t, Ok _) =>
      match load_model W L settings model with
      | (model', Ok _) => (model', (t, Ok tt))
      | (model', Raise e) =>
          if is_Exception (exn_cls e) then (model', (t, Ok tt))
          else (model', (t, Raise e))
      end
  end.

(** How a JSON route ends. *)
Inductive reply :=
| Json (body : list (string * string))
| Failure (status_code : Z) (detail : string)
| Escaped (e : exn).

(** [POST /model/reload] of the open variant. *)
Definition reload_model (W : World) (L : Loader) (settings : Settings)
           (model : WanVideoModel) : WanVideoModel * reply :=
  match load_model W L settings model with
  | (model', Ok _) =>
      (model', Json [("status", "success");
                     ("message", "Model reloaded successfully")])
  | (model', Raise e) =>
      if is_Exception (exn_cls e)
      then (model', Failure 500 ("Error reloading model: " ++ exn_msg e))
      else (model', Escaped e)
  end.

End App.

(* ================================================================== *)
(** ** utils/file_utils.py: cleanup                                    *)
(* ================================================================== *)

Module FileOps.
Import Py.

Record FileSystem := {
  os_path_exists : string -> bool;
  os_remove : string -> result unit
}.

(** [cleanup_file]: the paths [os.remove] was called on, and how the call
    ends. *)
Definition cleanup_file (fs : FileSystem) (file_path : string)
  : list string * result unit :=
  if os_path_exists fs file_path then
    match os_remove fs file_path with
    | Ok _ => ([file_path], Ok tt)
    | Raise e =>
        if is_Exception (exn_cls e) then ([file_path], Ok tt)
        else ([file_path], Raise e)
    end
  else ([], Ok tt).

End FileOps.

(* ================================================================== *)
(** ** Sample values for running the code                              *)
(* ================================================================== *)

Module Samples.
Import Py Config WanModel Engine Loading.

(** The default settings with authentication required and the given
    server-side token. *)
Definition secured (token : option string) : Settings := {|
  model_path := model_path default_settings;
  Config.device := Config.device default_settings;
  Config.dtype := Config.dtype default_settings;
  host := host default_settings;
  port := port default_settings;
  workers := workers default_settings;
  reload := reload default_settings;
  default_num_frames := default_num_frames default_settings;
  default_num_inference_steps := default_num_inference_steps default_settings;
  default_guidance_scale := default_guidance_scale default_settings;
  default_max_area := default_max_area default_settings;
  max_file_size := max_file_size default_settings;
  allowed_extensions := allowed_extensions default_settings;
  log_level := log_level default_settings;
  log_file := log_file default_settings;
  output_dir := output_dir default_settings;
  temp_dir := temp_dir default_settings;
  cleanup_temp_files := cleanup_temp_files default_settings;
  require_auth := true;
  api_token := token
|}.

(** A loaded engine whose pipeline returns one short frame sequence. *)
Definition loaded_engine : WanVideoModel := {|
  pipe := Some (fun _ => Ok [[1; 2; 3]]);
  image_processor := Some tt;
  Engine.device := "cpu";
  Engine.dtype := bfloat16
|}.

(** [bare_world] with an image decoder that gives an image of the given
    mode and size. *)
Definition decoding_world (m : string) (w h : Z) : World := {|
  requests_get_image := requests_get_image bare_world;
  Image_open_path := Image_open_path bare_world;
  Image_open_bytes := fun _ => Ok {| mode := m; width := w; height := h |};
  export_to_video := export_to_video bare_world;
  mkdir_parents := mkdir_parents bare_world;
  uuid4_hex := uuid4_hex bare_world;
  cuda_is_available := false;
  libm_pow := libm_pow bare_world
|}.

(** [decoding_world] with a video export that fails. *)
Definition export_failing_world (m : string) (w h : Z) : World := {|
  requests_get_image := requests_get_image bare_world;
  Image_open_path := Image_open_path bare_world;
  Image_open_bytes := fun _ => Ok {| mode := m; width := w; height := h |};
  export_to_video := fun _ _ _ => raise OtherException "No space left on device";
  mkdir_parents := mkdir_parents bare_world;
  uuid4_hex := uuid4_hex bare_world;
  cuda_is_available := false;
  libm_pow := libm_pow bare_world
|}.

(** [bare_world] with a GPU. *)
Definition gpu_world : World := {|
  requests_get_image := requests_get_image bare_world;
  Image_open_path := Image_open_path bare_world;
  Image_open_bytes := Image_open_bytes bare_world;
  export_to_video := export_to_video bare_world;
  mkdir_parents := mkdir_parents bare_world;
  uuid4_hex := uuid4_hex bare_world;
  cuda_is_available := true;
  libm_pow := libm_pow bare_world
|}.

(** A model directory from which everything loads. *)
Definition working_loader : Loader := {|
  model_dir_exists := fun _ => true;
  vae_from_pretrained := fun _ => Ok (VaeHandle 1);
  pipeline_from_pretrained := fun _ _ _ => Ok (fun _ => Ok [[4; 5; 6]]);
  enable_sequential_cpu_offload := fun _ => Ok tt
|}.

(** No model directory. *)
Definition missing_loader : Loader := {|
  model_dir_exists := fun _ => false;
  vae_from_pretrained := vae_from_pretrained working_loader;
  pipeline_from_pretrained := pipeline_from_pretrained working_loader;
  enable_sequential_cpu_offload := enable_sequential_cpu_offload working_loader
|}.

(** Everything loads, the switch to sequential offload fails. *)
Definition offload_failing_loader : Loader := {|
  model_dir_exists := model_dir_exists working_loader;
  vae_from_pretrained := vae_from_pretrained working_loader;
  pipeline_from_pretrained := pipeline_from_pretrained working_loader;
  enable_sequential_cpu_offload :=
    fun _ => raise RuntimeError "CUDA out of memory"
|}.

(** A minimal image form. *)
Definition image_form : Routes.ImageForm := {|
  Routes.image := FileUtils.upload (Some "photo.png") FileUtils.SizeNone;
  Routes.prompt := "a cat";
  Routes.negative_prompt := None;
  Routes.num_frames := None;
  Routes.num_inference_steps := None;
  Routes.guidance_scale := None;
  Routes.max_area := None
|}.

(** A minimal text form. *)
Definition text_form : Routes.TextForm := {|
  Routes.t_prompt := "a red ball bouncing";
  Routes.t_negative_prompt := None;
  Routes.t_num_frames := None;
  Routes.t_num_inference_steps := None;
  Routes.t_guidance_scale := None;
  Routes.t_height := None;
  Routes.t_width := None
|}.

End Samples.

(* ================================================================== *)
(** ** scripts/test_api.py                                             *)
(* ================================================================== *)

Module SmokeTest.
Import Py.

(** The form fields the script posts. *)
Record PostData := {
  d_prompt : string;
  d_negative_prompt : string;
  d_num_frames : Z;
  d_num_inference_steps : Z;
  d_guidance_scale : float
}.

(** The requests the script sends. *)
Inductive request :=
| Get (url : string)
| Post (url : string) (upload_name : string) (image_path : string)
       (data : PostData) (timeout : Z).

(** What a GET gives: a status with a JSON object, of which only the
    truthiness of [model_loaded] (false when absent) is looked at; a status
    with a body [json()] raises on; or an exception of [requests]. *)
Inductive get_outcome :=
| GetJson (status_code : Z) (model_loaded : bool)
| GetUndecodable (status_code : Z)
| GetRaised (msg : string).

Inductive post_outcome :=
| Answered (status_code : Z) (content : string)
| TimedOut
| PostRaised (msg : string).

Record Client := {
  get : string -> get_outcome;
  post : request -> post_outcome
}.

(** The local files: which paths exist, and which can be written. *)
Record Disk := {
  exists_path : string -> bool;
  writable : string -> bool
}.

Record Args := {
  url : string;
  image : option string;
  quick : bool;
  skip_generation : bool
}.

Definition test_health_check (c : Client) (base_url : string)
  : list request * bool :=
  let u := base_url ++ "/api/v1/health" in
  ([Get u],
   match get c u with
   | GetJson status loaded => if status =? 200 then loaded else false
   | GetUndecodable _ => false
   | GetRaised _ => false
   end).

Definition test_model_info (c : Client) (base_url : string)
  : list request * bool :=
  let u := base_url ++ "/api/v1/model/info" in
  ([Get u],
   match get c u with
   | GetJson status _ => status =? 200
   | GetUndecodable _ => false
   | GetRaised _ => false
   end).

Definition quick_data : PostData := {|
  d_prompt :=
    "A happy smiling face animation, smooth movement, cheerful expression";
  d_negative_prompt := "blurry, static, low quality, distorted";
  d_num_frames := 25;
  d_num_inference_steps := 20;
  d_guidance_scale := Config.five
|}.

Definition full_data : PostData := {|
  d_prompt :=
    "A happy smiling face animation, smooth movement, cheerful expression, high quality";
  d_negative_prompt := "blurry, static, low quality, distorted, ugly, deformed";
  d_num_frames := 121;
  d_num_inference_steps := 50;
  d_guidance_scale := Config.five
|}.

(** [test_generate_video]; the image file, once seen to exist, is taken to
    open. *)
Definition test_generate_video (c : Client) (disk : Disk)
           (image_path base_url : string) (quick_test : bool)
  : list request * bool :=
  if negb (exists_path disk image_path) then ([], false)
  else
    let u := base_url ++ "/api/v1/generate_video" in
    let data := if quick_test then quick_data else full_data in
    let timeout := if quick_test then 300 else 1200 in
    let req := Post u "test.jpg" image_path data timeout in
    ([req],
     match post c req with
     | Answered status _ =>
         if status =? 200 then writable disk "test_generated_video.mp4"
         else false
     | TimedOut => false
     | PostRaised _ => false
     end).

(** [create_test_image]: the disk afterwards, or the exception of a failed
    [save]. *)
Definition create_test_image (disk : Disk) (filename : string) : result Disk :=
  if writable disk filename then
    Ok {| exists_path := fun p => (String.eqb p filename || exists_path disk p)%bool;
          writable := writable disk |}
  else raise OtherException ("cannot write " ++ filename).

(** [main]: the requests sent, and [None] when generation was not tried,
    else whether it succeeded. *)
Definition main (c : Client) (disk : Disk) (args : Args)
  : list request * result (option bool) :=
  let (t1, model_loaded) := test_health_check c (url args) in
  let (t2, _) := test_model_info c (url args) in
  if negb model_loaded then ((t1 ++ t2)%list, Ok None)
  else if skip_generation args then ((t1 ++ t2)%list, Ok None)
  else
    let provided :=
      match image args with
      | Some p => if (truthy_str p && exists_path disk p)%bool then Some p
                  else None
      | None => None
      end in
    let prepared :=
      match provided with
      | Some p => Ok (disk, p)
      | None =>
          let test_image := "test_image.jpg" in
          if negb (exists_path disk test_image) then
            disk' <- create_test_image disk test_image ;; Ok (disk', test_image)
          else Ok (disk, test_image)
      end in
    match prepared with
    | Raise e => ((t1 ++ t2)%list, Raise e)
    | Ok (disk', test_image) =>
        let (t3, success) :=
          test_generate_video c disk' test_image (url args) (quick args) in
        ((t1 ++ t2 ++ t3)%list, Ok (Some success))
    end.

Definition is_post (r : request) : bool :=
  match r with Post _ _ _ _ _ => true | Get _ => false end.

End SmokeTest.

(* ================================================================== *)
(** * Properties                                                       *)
(* ================================================================== *)

(** ** Upload validation *)

Section Validation.
Import Py Config FileUtils.

Lemma str_in_In (s : string) (l : list string) :
  str_in s l = true <-> In s l.
Proof.
  unfold str_in. rewrite existsb_exists. split.
  - intros [x [Hx He]]. apply String.eqb_eq in He. now subst.
  - intros H. exists s. split; [assumption | apply String.eqb_refl].
Qed.

Lemma str_in_not_In (s : string) (l : list string) :
  str_in s l = false <-> ~ In s l.
Proof.
  rewrite <- str_in_In. destruct (str_in s l); split; congruence.
Qed.

Lemma truthy_str_nonempty (s : string) :
  truthy_str s = true <-> s <> "".
Proof. destruct s; simpl; split; congruence. Qed.

(** The size test fires exactly on a declared, non-zero size above the
    limit. *)
Lemma size_too_large_iff (file : UploadFile) (settings : Settings) :
  size_too_large file settings = true <->
  exists n, size file = SizeInt n /\ n <> 0 /\ n > max_file_size settings.
Proof.
  unfold size_too_large. destruct (size file) as [| |n].
  - split; [discriminate | intros [m [H _]]; discriminate].
  - split; [discriminate | intros [m [H _]]; discriminate].
  - rewrite andb_true_iff, negb_true_iff, Z.eqb_neq, Z.gtb_gt. split.
    + intros [H1 H2]. exists n. auto.
    + intros [m [Hm [H1 H2]]]. injection Hm as ->. auto.
Qed.

(** A file passes or is refused with [ValueError]; nothing else. *)
Lemma validate_image_file_cases (file : UploadFile) (settings : Settings) :
  validate_image_file file settings = Ok tt \/
  exists msg, validate_image_file file settings = Raise (Exn ValueError msg).
Proof.
  unfold validate_image_file, raise.
  destruct (size_too_large file settings); [right; eauto |].
  destruct (filename file) as [name|]; [| left; reflexivity].
  destruct (truthy_str name); [| left; reflexivity].
  destruct (str_in (file_ext name) _); simpl; [left; reflexivity | right; eauto].
Qed.

(** C9: an upload whose filename is empty or absent and whose declared size
    is absent, [None] or 0 passes validation, whatever its content and
    whatever the settings: both checks are skipped. *)
Theorem validate_image_file_skips_unnamed_unsized
        (file : UploadFile) (settings : Settings) :
  (filename file = None \/ filename file = Some "") ->
  (size file = SizeMissing \/ size file = SizeNone \/ size file = SizeInt 0) ->
  validate_image_file file settings = Ok tt.
Proof.
  intros Hname Hsize. unfold validate_image_file, size_too_large.
  destruct Hsize as [-> | [-> | ->]]; simpl;
    destruct Hname as [-> | ->]; reflexivity.
Qed.

Lemma validate_image_file_skips_unnamed_unsized_witness :
  validate_image_file
    {| filename := Some ""; size := SizeInt 0; content := "not an image" |}
    (with_limits ["jpg"; "png"] 1000) = Ok tt.
Proof.
  apply validate_image_file_skips_unnamed_unsized; simpl.
  - right; reflexivity.
  - right; right; reflexivity.
Defined.

(** The two examples of the specification. *)
Example validate_photo_gif (sz : size_attr) :
  exists msg,
    validate_image_file (upload (Some "photo.gif") sz)
                        (with_limits ["jpg"; "png"] 1000)
    = Raise (Exn ValueError msg).
Proof.
  unfold validate_image_file.
  destruct (size_too_large _ _); [eexists; reflexivity |].
  eexists. reflexivity.
Qed.

Example validate_photo_jpg_1001 :
  validate_image_file (upload (Some "photo.jpg") (SizeInt 1001))
                      (with_limits ["jpg"; "png"] 1000)
  = Raise (Exn ValueError "File size 1001 exceeds maximum allowed size 1000").
Proof. reflexivity. Qed.

Example validate_photo_JPG_1000 :
  validate_image_file (upload (Some "uploads/Photo.JPG") (SizeInt 1000))
                      (with_limits ["jpg"; "png"] 1000)
  = Ok tt.
Proof. reflexivity. Qed.

(** C6, as stated, fails: a declared size of 0 exceeds a negative
    [max_file_size] and the file passes, since a size of 0 skips the size
    check; and an empty filename, whose extension (empty) is not in the
    allow-list, passes, since an empty filename skips the extension check. *)
Lemma validate_image_file_not_all_refused :
  (exists n,
      size (upload (Some "photo.jpg") (SizeInt 0)) = SizeInt n /\
      n > max_file_size (with_limits ["jpg"; "png"] (-1)) /\
      validate_image_file (upload (Some "photo.jpg") (SizeInt 0))
                          (with_limits ["jpg"; "png"] (-1)) = Ok tt)
  /\
  (~ In (file_ext "")
        (get_allowed_extensions_list (with_limits ["jpg"; "png"] 1000)) /\
   validate_image_file (upload (Some "") SizeNone)
                       (with_limits ["jpg"; "png"] 1000) = Ok tt).
Proof.
  split.
  - exists 0. repeat split.
  - split; [| reflexivity].
    apply str_in_not_In. reflexivity.
Qed.

(** C6, amended: validation fails with [ValueError] exactly when the
    declared size is a non-zero integer above [max_file_size], or the
    filename is non-empty and its lower-cased extension is not in the
    normalized allow-list; in every other case it succeeds. *)
Theorem validate_image_file_refuses_exactly
        (file : UploadFile) (settings : Settings) :
  let too_large :=
    exists n, size file = SizeInt n /\ n <> 0 /\ n > max_file_size settings in
  let bad_extension :=
    exists name, filename file = Some name /\ name <> "" /\
                 ~ In (file_ext name) (get_allowed_extensions_list settings) in
  ((exists msg, validate_image_file file settings = Raise (Exn ValueError msg))
   <-> too_large \/ bad_extension)
  /\ (validate_image_file file settings = Ok tt
      <-> ~ (too_large \/ bad_extension)).
Proof.
  intros too_large bad_extension.
  assert (Hfail : (exists msg, validate_image_file file settings
                               = Raise (Exn ValueError msg))
                  <-> too_large \/ bad_extension).
  { subst too_large bad_extension. rewrite <- size_too_large_iff.
    unfold validate_image_file, raise.
    destruct (size_too_large file settings) eqn:Hs.
    - split; [intros _; left; reflexivity | intros _; eauto].
    - destruct (filename file) as [name|] eqn:Hn.
      + destruct (truthy_str name) eqn:Ht.
        * destruct (str_in (file_ext name) _) eqn:Hin; simpl.
          -- split; [intros [m Hm]; discriminate |].
             intros [H | [nm [Hnm [_ Hni]]]]; [discriminate |].
             injection Hnm as <-. apply str_in_In in Hin. contradiction.
          -- split; [| intros _; eauto].
             intros _. right. exists name. repeat split.
             ++ now apply truthy_str_nonempty.
             ++ now apply str_in_not_In.
        * split; [intros [m Hm]; discriminate |].
          intros [H | [nm [Hnm [Hne _]]]]; [discriminate |].
          injection Hnm as <-. apply truthy_str_nonempty in Hne. congruence.
      + split; [intros [m Hm]; discriminate |].
        intros [H | [nm [Hnm _]]]; discriminate. }
  split; [exact Hfail |].
  rewrite <- Hfail.
  destruct (validate_image_file_cases file settings) as [Hok | [msg Hmsg]].
  - rewrite Hok. split; [intros _ [m Hm]; discriminate | reflexivity].
  - rewrite Hmsg. split; [discriminate | intros H; exfalso; apply H; eauto].
Qed.

End Validation.

(** ** Listing the output directory *)

Section Listing.
Import Py Config FileUtils.

Variable key : file_info -> Z.

Lemma insert_desc_perm (x : file_info) (l : list file_info) :
  Permutation (insert_desc key x l) (x :: l).
Proof.
  induction l as [|y l IH]; simpl.
  - apply Permutation_refl.
  - destruct (key x <? key y).
    + eapply perm_trans; [apply perm_skip, IH | apply perm_swap].
    + apply Permutation_refl.
Qed.

Lemma sorted_desc_perm (l : list file_info) :
  Permutation (sorted_desc key l) l.
Proof.
  induction l as [|x l IH]; simpl.
  - apply perm_nil.
  - eapply perm_trans; [apply insert_desc_perm | now apply perm_skip].
Qed.

Lemma insert_desc_sorted (x : file_info) (l : list file_info) :
  StronglySorted (descending key) l ->
  StronglySorted (descending key) (insert_desc key x l).
Proof.
  induction 1 as [|y l Hs IH Hall]; simpl.
  - repeat constructor.
  - destruct (key x <? key y) eqn:Hlt.
    + apply Z.ltb_lt in Hlt. constructor; [exact IH |].
      eapply Permutation_Forall;
        [apply Permutation_sym, insert_desc_perm |].
      constructor; [unfold descending; lia | exact Hall].
    + apply Z.ltb_ge in Hlt. constructor.
      * constructor; assumption.
      * constructor; [exact Hlt |].
        eapply Forall_impl; [| exact Hall].
        unfold descending. intros a Ha. lia.
Qed.

Lemma sorted_desc_sorted (l : list file_info) :
  StronglySorted (descending key) (sorted_desc key l).
Proof.
  induction l as [|x l IH]; simpl.
  - constructor.
  - now apply insert_desc_sorted.
Qed.

(** Files with equal keys keep the order they were listed in. *)
Lemma insert_desc_stable (k : Z) (x : file_info) (l : list file_info) :
  filter (fun f => key f =? k) (insert_desc key x l)
  = filter (fun f => key f =? k) (x :: l).
Proof.
  induction l as [|y l IH]; [reflexivity |].
  simpl insert_desc. destruct (key x <? key y) eqn:Hlt; [| reflexivity].
  apply Z.ltb_lt in Hlt. simpl in *. rewrite IH.
  destruct (key x =? k) eqn:Hx, (key y =? k) eqn:Hy; try reflexivity.
  apply Z.eqb_eq in Hx, Hy. lia.
Qed.

Lemma sorted_desc_stable (k : Z) (l : list file_info) :
  filter (fun f => key f =? k) (sorted_desc key l)
  = filter (fun f => key f =? k) l.
Proof.
  induction l as [|x l IH]; [reflexivity |].
  simpl sorted_desc. rewrite insert_desc_stable. simpl. now rewrite IH.
Qed.

End Listing.

Section ListingFiles.
Import Py Config FileUtils.

(** C7: on a path that does not exist the listing is empty; on a directory
    it is the records (name, size, ctime, mtime) of exactly the regular
    files among its entries, ordered by creation time, latest first. *)
Theorem list_output_files_lists_regular_files_latest_first
        (fs : string -> fs_node) (output_dir : string) :
  (fs output_dir = Missing -> list_output_files fs output_dir = Ok [])
  /\
  (forall entries, fs output_dir = Dir entries ->
     exists files,
       list_output_files fs output_dir = Ok files /\
       Permutation files (map info_of (filter is_file entries)) /\
       StronglySorted (descending info_created) files /\
       (forall f, In f files <->
                  exists e, In e entries /\ is_file e = true /\
                            f = {| info_filename := entry_name e;
                                   info_size := st_size e;
                                   info_created := st_ctime e;
                                   info_modified := st_mtime e |})).
Proof.
  unfold list_output_files. split.
  - intros ->. reflexivity.
  - intros entries ->. simpl.
    exists (sorted_desc info_created (map info_of (filter is_file entries))).
    split; [reflexivity |].
    split; [apply sorted_desc_perm |].
    split; [apply sorted_desc_sorted |].
    intros f. split.
    + intros Hin.
      apply (Permutation_in _ (sorted_desc_perm info_created _)) in Hin.
      apply in_map_iff in Hin. destruct Hin as [e [<- He]].
      apply filter_In in He. destruct He as [He Hf].
      exists e. auto.
    + intros [e [He [Hf ->]]].
      apply (Permutation_in _ (Permutation_sym (sorted_desc_perm info_created _))).
      apply in_map_iff. exists e. split; [reflexivity |].
      apply filter_In. auto.
Qed.

(** Three files created at distinct times, one subdirectory. *)
Example list_output_files_three :
  let entry n k t :=
    {| entry_name := n; entry_kind_of := k; st_size := 10;
       st_ctime := t; st_mtime := t + 1 |} in
  let fs p :=
    if String.eqb p "outputs"
    then Dir [entry "a.mp4" RegularFile 100; entry "tmp" Directory 400;
              entry "b.mp4" RegularFile 300; entry "c.mp4" RegularFile 200]
    else Missing in
  option_map (map info_filename)
             (match list_output_files fs "outputs" with
              | Ok l => Some l | Raise _ => None end)
  = Some ["b.mp4"; "c.mp4"; "a.mp4"]
  /\ list_output_files fs "elsewhere" = Ok [].
Proof. split; reflexivity. Qed.

End ListingFiles.

(** ** The image preprocessor *)

Section Preprocessor.
Import Py Config WanModel ImageProcessor.

Lemma floor8_divide (n : Z) : (8 | floor8 n).
Proof. exists (n / 8). reflexivity. Qed.

Lemma floor8_bounds (n : Z) : n - 8 < floor8 n <= n.
Proof.
  unfold floor8. pose proof (Z.mod_pos_bound n 8 ltac:(lia)).
  pose proof (Z.div_mod n 8 ltac:(lia)). lia.
Qed.

Lemma floor8_fixed (n : Z) : (8 | n) -> floor8 n = n.
Proof. intros [k ->]. unfold floor8. now rewrite Z.div_mul by lia. Qed.


Lemma floor8_positive (n : Z) : 0 < floor8 n <-> 8 <= n.
Proof.
  unfold floor8. split; intros H.
  - assert (0 < n / 8) by lia.
    pose proof (Z.div_mod n 8 ltac:(lia)).
    pose proof (Z.mod_pos_bound n 8 ltac:(lia)). lia.
  - assert (1 <= n / 8) by (apply Z.div_le_lower_bound; lia). lia.
Qed.

(** Conversion to RGB keeps the size. *)
Lemma rgb_size (img : Image) :
  let img' := if negb (String.eqb (mode img) "RGB") then convert img "RGB"
              else img in
  width img' = width img /\ height img' = height img.
Proof. destruct (negb _); simpl; auto. Qed.

(** When [resize] returns, both sides are at least 1. *)
Lemma resize_returns (img out : Image) (w h : Z) :
  resize img w h = Ok out ->
  1 <= w /\ 1 <= h /\ out = {| mode := mode img; width := w; height := h |}.
Proof.
  unfold resize.
  destruct (w <? 1) eqn:Ew; simpl; [discriminate |].
  destruct (h <? 1) eqn:Eh; simpl; [discriminate |].
  intros H. injection H as <-.
  apply Z.ltb_ge in Ew, Eh. auto.
Qed.

Lemma resize_on_sides (img : Image) (w h : Z) :
  1 <= w -> 1 <= h ->
  resize img w h = Ok {| mode := mode img; width := w; height := h |}.
Proof.
  intros Hw Hh. unfold resize.
  apply Z.ltb_ge in Hw, Hh. now rewrite Hw, Hh.
Qed.

Lemma resize_refuses (img : Image) (w h : Z) :
  w < 1 \/ h < 1 ->
  resize img w h = Raise (Exn ValueError "height and width must be > 0").
Proof.
  intros H. unfold resize.
  replace ((w <? 1) || (h <? 1))%bool with true; [reflexivity |].
  symmetry. apply orb_true_iff.
  destruct H; [left | right]; now apply Z.ltb_lt.
Qed.



(** Within [max_area] the preprocessor returns exactly when there is nothing
    to resize or both sides are at least 8; with a side from 1 to 7 the
    resize to a side of 0 is refused. *)
Lemma preprocessor_returns_within_max_area
      (W : World) (image : image_arg) (max_area : Z) (img : Image) :
  load W image = Ok img ->
  width img * height img <= max_area ->
  ((exists out, call W image max_area = Ok out)
   <-> (floor8 (width img) = width img /\ floor8 (height img) = height img)
       \/ (8 <= width img /\ 8 <= height img)).
Proof.
  intros Hload Harea. unfold call. rewrite Hload. simpl.
  destruct (rgb_size img) as [Hw Hh].
  set (img' := if negb (String.eqb (mode img) "RGB") then convert img "RGB"
               else img) in *.
  rewrite Hw, Hh.
  replace (width img * height img >? max_area) with false
    by (symmetry; rewrite Z.gtb_ltb; apply Z.ltb_ge; lia).
  pose proof (floor8_positive (width img)) as Pw.
  pose proof (floor8_positive (height img)) as Ph.
  destruct (floor8 (width img) =? width img) eqn:Ew;
    destruct (floor8 (height img) =? height img) eqn:Eh; simpl.
  1: { apply Z.eqb_eq in Ew, Eh. split; eauto. }
  all: split;
    [ intros [out Hout]; right; apply resize_returns in Hout;
      destruct Hout as [H1 [H2 _]]; split; [apply Pw | apply Ph]; lia
    | intros [[E1 E2] | [H1 H2]];
      [ apply Z.eqb_neq in Ew || apply Z.eqb_neq in Eh; congruence
      | eexists; apply resize_on_sides; [apply Pw in H1 | apply Ph in H2]; lia ] ].
Qed.

Example preprocessor_refuses_narrow_image :
  call bare_world (ByImage {| mode := "RGB"; width := 5; height := 100 |})
       901120
  = Raise (Exn ValueError "height and width must be > 0").
Proof. reflexivity. Qed.



(** Above [max_area] the preprocessor returns exactly when the arithmetic
    raises nothing and both truncated sides are at least 8. *)
Lemma preprocessor_returns_above_max_area
      (W : World) (image : image_arg) (max_area : Z) (img : Image) :
  load W image = Ok img ->
  width img * height img > max_area ->
  ((exists out, call W image max_area = Ok out)
   <-> exists ratio tw th,
        int_truediv max_area (width img * height img) = Ok ratio /\
        scaled (width img) (pow_half (libm_pow W) ratio) = Ok tw /\
        scaled (height img) (pow_half (libm_pow W) ratio) = Ok th /\
        8 <= tw /\ 8 <= th).
Proof.
  intros Hload Harea. unfold call. rewrite Hload. simpl.
  destruct (rgb_size img) as [Hw Hh].
  set (img' := if negb (String.eqb (mode img) "RGB") then convert img "RGB"
               else img) in *.
  rewrite Hw, Hh.
  replace (width img * height img >? max_area) with true
    by (symmetry; rewrite Z.gtb_ltb; apply Z.ltb_lt; lia).
  destruct (int_truediv max_area (width img * height img)) as [ratio|e]
    eqn:Hratio; simpl.
  - destruct (scaled (width img) (pow_half (libm_pow W) ratio)) as [tw|e]
      eqn:Htw; simpl.
    + destruct (scaled (height img) (pow_half (libm_pow W) ratio)) as [th|e]
        eqn:Hth; simpl.
      * pose proof (floor8_positive tw) as Pw.
        pose proof (floor8_positive th) as Ph.
        split.
        -- intros [out Hout]. apply resize_returns in Hout.
           destruct Hout as [H1 [H2 _]].
           exists ratio, tw, th.
           split; [reflexivity |]. split; [exact Htw |]. split; [exact Hth |].
           split; [apply Pw | apply Ph]; lia.
        -- intros [r [a [b [Hr [Ha [Hb [H1 H2]]]]]]].
           injection Hr as <-. rewrite Htw in Ha. rewrite Hth in Hb.
           injection Ha as <-. injection Hb as <-.
           eexists. apply resize_on_sides; [apply Pw in H1 | apply Ph in H2]; lia.
      * split; [intros [out H]; discriminate |].
        intros [r [a [b [Hr [_ [H _]]]]]]. injection Hr as <-.
        rewrite Hth in H. discriminate.
    + split; [intros [out H]; discriminate |].
      intros [r [a [b [Hr [H _]]]]]. injection Hr as <-.
      rewrite Htw in H. discriminate.
  - split; [intros [out H]; discriminate |].
    intros [r [a [b [H _]]]]. discriminate.
Qed.

(** The preprocessor does not return for every image above [max_area].
    With [max_area = 0] the scale is 0.0 whatever the platform's [pow], both
    sides come out 0 and the resize is refused. *)
Example preprocessor_refuses_at_zero_max_area (W : World) :
  call W (ByImage {| mode := "RGB"; width := 64; height := 48 |}) 0
  = Raise (Exn ValueError "height and width must be > 0").
Proof. reflexivity. Qed.

(** A negative [max_area] makes the scale complex and [int] raises. *)
Example preprocessor_raises_on_negative_max_area (W : World) :
  call W (ByImage {| mode := "RGB"; width := 10; height := 10 |}) (-5)
  = Raise (Exn TypeError
             "int() argument must be a string, a bytes-like object or a real number, not 'complex'").
Proof. reflexivity. Qed.

(** 4096 x 4 against [max_area = 4096]: the scale is 0.5, the truncated
    sides are 2048 and 2, and the resize to 2048 x 0 is refused. *)
Example preprocessor_refuses_thin_image :
  call bare_world (ByImage {| mode := "RGB"; width := 4096; height := 4 |})
       4096
  = Raise (Exn ValueError "height and width must be > 0").
Proof. vm_compute. reflexivity. Qed.

End Preprocessor.

(** ** The engine and the open routes *)

Section Generation.
Import Py Config FileUtils WanModel Engine Routes.

Lemma is_loaded_false_iff (model : WanVideoModel) :
  is_loaded model = false <-> pipe model = None \/ image_processor model = None.
Proof.
  unfold is_loaded.
  destruct (pipe model), (image_processor model); split; intros H; auto;
    try discriminate; destruct H; discriminate.
Qed.

Lemma is_loaded_true_iff (model : WanVideoModel) :
  is_loaded model = true <->
  exists p ip, pipe model = Some p /\ image_processor model = Some ip.
Proof.
  unfold is_loaded.
  destruct (pipe model), (image_processor model); split; intros H;
    eauto; try discriminate; destruct H as [p' [ip' [H1 H2]]]; discriminate.
Qed.

(** The engine as [__init__] leaves it is not loaded. *)
Lemma init_not_loaded (W : World) (settings : Settings) :
  is_loaded (init W settings) = false.
Proof. reflexivity. Qed.

(** C5: with the pipeline handle or the preprocessor handle absent, the
    engine's [generate_video] raises [RuntimeError "Model not loaded"] and
    the pipeline is not called; both generation routes answer 503 and
    call nothing, the engine included. *)
Theorem unloaded_engine_refuses_generation
        (W : World) (model : WanVideoModel) (settings : Settings)
        (img : Image) (prompt negative_prompt : string)
        (num_frames num_inference_steps : Z) (guidance_scale : float)
        (max_area : Z) (form : ImageForm) (text_form : TextForm) :
  pipe model = None \/ image_processor model = None ->
  is_loaded model = false
  /\ (exists trace,
         Engine.generate_video W model img prompt negative_prompt num_frames
                               num_inference_steps guidance_scale max_area
         = (trace, Raise (Exn RuntimeError "Model not loaded"))
         /\ filter pipeline_call trace = [])
  /\ Routes.generate_video W model settings form
     = ([], HTTPException 503 "Model not loaded")
  /\ Routes.generate_video_from_text W model settings text_form
     = ([], HTTPException 503 "Model not loaded")
  /\ status_of (snd (Routes.generate_video W model settings form)) = 503
  /\ status_of (snd (Routes.generate_video_from_text W model settings text_form))
     = 503.
Proof.
  intros H. apply is_loaded_false_iff in H.
  unfold Engine.generate_video, Routes.generate_video,
    Routes.generate_video_from_text.
  rewrite H. simpl. repeat split.
  exists [EngineCalled "generate_video"]. split; reflexivity.
Qed.

Lemma unloaded_engine_refuses_generation_witness :
  Routes.generate_video
    bare_world (init bare_world default_settings) default_settings
    {| image := upload (Some "photo.jpg") (SizeInt 10);
       prompt := "a cat"; negative_prompt := None; num_frames := None;
       num_inference_steps := None; guidance_scale := None;
       max_area := None |}
  = ([], HTTPException 503 "Model not loaded").
Proof.
  apply (unloaded_engine_refuses_generation
           bare_world (init bare_world default_settings) default_settings
           {| mode := "RGB"; width := 8; height := 8 |} "a cat" "" 121 50
           five 901120
           {| image := upload (Some "photo.jpg") (SizeInt 10);
              prompt := "a cat"; negative_prompt := None; num_frames := None;
              num_inference_steps := None; guidance_scale := None;
              max_area := None |}
           {| t_prompt := "a cat"; t_negative_prompt := None;
              t_num_frames := None; t_num_inference_steps := None;
              t_guidance_scale := None; t_height := None;
              t_width := None |}).
  left. reflexivity.
Defined.

(** The class has no attribute for the text route to call. *)
Lemma engine_lacks_generate_video_from_text :
  Engine.getattr "generate_video_from_text"
  = Raise (Exn AttributeError
             "'WanVideoModel' object has no attribute 'generate_video_from_text'").
Proof. reflexivity. Qed.

(** C1 does not hold of the code: with the engine loaded, every request to
    [POST /generate_video_from_text] ends in status 500, because the
    engine has no operation [generate_video_from_text]; the pipeline is not
    called and no file is exported. *)
Theorem text_route_fails_on_loaded_engine
        (W : World) (model : WanVideoModel) (settings : Settings)
        (form : TextForm) :
  is_loaded model = true ->
  Routes.generate_video_from_text W model settings form
  = ([], HTTPException 500
           "Error generating video from text: 'WanVideoModel' object has no attribute 'generate_video_from_text'").
Proof.
  intros H. unfold Routes.generate_video_from_text. rewrite H. reflexivity.
Qed.

Lemma text_route_fails_on_loaded_engine_witness :
  status_of
    (snd (Routes.generate_video_from_text
            bare_world
            {| pipe := Some (fun _ => Ok [[1; 2; 3]]);
               image_processor := Some tt;
               Engine.device := "cpu"; Engine.dtype := bfloat16 |}
            default_settings
            {| t_prompt := "a red ball bouncing"; t_negative_prompt := None;
               t_num_frames := Some 121; t_num_inference_steps := Some 50;
               t_guidance_scale := Some five; t_height := None;
               t_width := None |}))
  = 500.
Proof.
  rewrite (text_route_fails_on_loaded_engine
             bare_world
             {| pipe := Some (fun _ => Ok [[1; 2; 3]]);
                image_processor := Some tt;
                Engine.device := "cpu"; Engine.dtype := bfloat16 |}
             default_settings
             {| t_prompt := "a red ball bouncing"; t_negative_prompt := None;
                t_num_frames := Some 121; t_num_inference_steps := Some 50;
                t_guidance_scale := Some five; t_height := None;
                t_width := None |}
             eq_refl).
  reflexivity.
Defined.

(** The image route on the same engine does reach the pipeline. *)
Example image_route_succeeds_on_loaded_engine :
  let W := {| requests_get_image := requests_get_image bare_world;
              Image_open_path := Image_open_path bare_world;
              Image_open_bytes :=
                fun _ => Ok {| mode := "RGB"; width := 1920; height := 1080 |};
              export_to_video := export_to_video bare_world;
              mkdir_parents := mkdir_parents bare_world;
              uuid4_hex := uuid4_hex bare_world;
              cuda_is_available := false;
              libm_pow := libm_pow bare_world |} in
  let model := {| pipe := Some (fun _ => Ok [[1; 2; 3]]);
                  image_processor := Some tt;
                  Engine.device := "cpu"; Engine.dtype := bfloat16 |} in
  let r := Routes.generate_video W model default_settings
             {| image := upload (Some "photo.jpg") (SizeInt 10);
                prompt := "a cat"; negative_prompt := Some "blur";
                num_frames := None; num_inference_steps := Some 20;
                guidance_scale := None; max_area := None |} in
  status_of (snd r) = 200 /\
  fst r = [EngineCalled "generate_video";
           PipelineCalled {| pa_image := Some {| mode := "RGB"; width := 1264;
                                                 height := 704 |};
                             pa_prompt := "a cat";
                             pa_negative_prompt := "blur";
                             pa_height := 704; pa_width := 1264;
                             pa_num_frames := 121;
                             pa_guidance_scale := five;
                             pa_num_inference_steps := 20 |};
           MkdirCalled "outputs";
           EngineCalled "export_video";
           ExportCalled
             {| in_dir := "outputs";
                file_name := "generated_video_0123456789abcdef0123456789abcdef.mp4" |}
             24].
Proof. vm_compute. split; reflexivity. Qed.

End Generation.

(** ** Zero-valued form fields *)

Section FormDefaults.
Import Py Config FileUtils WanModel Engine Routes.

Lemma int_or_zero (d : Z) : int_or (Some 0) d = int_or None d.
Proof. reflexivity. Qed.

Lemma float_or_zero (s : bool) (d : float) :
  float_or (Some (S754_zero s)) d = float_or None d.
Proof. reflexivity. Qed.

(** A zero field and an omitted field give the same run of the handler, in
    every state of the engine: of [generate_video] in both variants and of
    [generate_video_from_text]. *)
Lemma zero_field_runs_as_omitted
        (W : World) (model : WanVideoModel) (settings : Settings)
        (status : Z) (authorization : option string)
        (file : UploadFile) (text : string) (negative : option string)
        (nf ns ma h w : option Z) (gs : option float) :
  let form nf ns gs ma :=
    {| image := file; prompt := text; negative_prompt := negative;
       num_frames := nf; num_inference_steps := ns; guidance_scale := gs;
       max_area := ma |} in
  let text_form nf ns gs :=
    {| t_prompt := text; t_negative_prompt := negative;
       t_num_frames := nf; t_num_inference_steps := ns;
       t_guidance_scale := gs; t_height := h; t_width := w |} in
  let zero := Some (S754_zero false) in
  (Routes.generate_video W model settings (form (Some 0) ns gs ma)
   = Routes.generate_video W model settings (form None ns gs ma)
   /\ Routes.generate_video W model settings (form nf (Some 0) gs ma)
      = Routes.generate_video W model settings (form nf None gs ma)
   /\ Routes.generate_video W model settings (form nf ns zero ma)
      = Routes.generate_video W model settings (form nf ns None ma)
   /\ Routes.generate_video W model settings (form nf ns gs (Some 0))
      = Routes.generate_video W model settings (form nf ns gs None))
  /\
  (AuthRoutes.generate_video status W model settings authorization
                             (form (Some 0) ns gs ma)
   = AuthRoutes.generate_video status W model settings authorization
                               (form None ns gs ma)
   /\ AuthRoutes.generate_video status W model settings authorization
                                (form nf (Some 0) gs ma)
      = AuthRoutes.generate_video status W model settings authorization
                                  (form nf None gs ma)
   /\ AuthRoutes.generate_video status W model settings authorization
                                (form nf ns zero ma)
      = AuthRoutes.generate_video status W model settings authorization
                                  (form nf ns None ma)
   /\ AuthRoutes.generate_video status W model settings authorization
                                (form nf ns gs (Some 0))
      = AuthRoutes.generate_video status W model settings authorization
                                  (form nf ns gs None))
  /\
  (Routes.generate_video_from_text W model settings (text_form (Some 0) ns gs)
   = Routes.generate_video_from_text W model settings (text_form None ns gs)
   /\ Routes.generate_video_from_text W model settings (text_form nf (Some 0) gs)
      = Routes.generate_video_from_text W model settings (text_form nf None gs)
   /\ Routes.generate_video_from_text W model settings (text_form nf ns zero)
      = Routes.generate_video_from_text W model settings (text_form nf ns None)).
Proof.
  intros form text_form zero.
  unfold AuthRoutes.generate_video, Routes.generate_video,
    Routes.generate_video_from_text.
  subst form text_form zero. simpl.
  repeat split;
    repeat match goal with
           | |- context [AuthRoutes.verify_api_token ?a ?b ?c] =>
               destruct (AuthRoutes.verify_api_token a b c)
           end;
    reflexivity.
Qed.

(** The same fallback seen in the pipeline call: 0 frames and a guidance
    scale of 0.0 reach the pipeline as the defaults 121 and 5.0. *)
Example zero_fields_reach_pipeline_as_defaults :
  let W := {| requests_get_image := requests_get_image bare_world;
              Image_open_path := Image_open_path bare_world;
              Image_open_bytes :=
                fun _ => Ok {| mode := "RGB"; width := 640; height := 480 |};
              export_to_video := export_to_video bare_world;
              mkdir_parents := mkdir_parents bare_world;
              uuid4_hex := uuid4_hex bare_world;
              cuda_is_available := false;
              libm_pow := libm_pow bare_world |} in
  let model := {| pipe := Some (fun _ => Ok [[1; 2; 3]]);
                  image_processor := Some tt;
                  Engine.device := "cpu"; Engine.dtype := bfloat16 |} in
  let r := Routes.generate_video W model default_settings
             {| image := upload (Some "photo.png") SizeNone;
                prompt := "a cat"; negative_prompt := Some "blur";
                num_frames := Some 0; num_inference_steps := Some 0;
                guidance_scale := Some (S754_zero false);
                max_area := Some 0 |} in
  nth_error (fst r) 1
  = Some (PipelineCalled
            {| pa_image := Some {| mode := "RGB"; width := 640; height := 480 |};
               pa_prompt := "a cat"; pa_negative_prompt := "blur";
               pa_height := 480; pa_width := 640;
               pa_num_frames := 121; pa_guidance_scale := five;
               pa_num_inference_steps := 50 |}).
Proof. vm_compute. reflexivity. Qed.

End FormDefaults.

(** ** The authenticated routes *)

Section Authentication.
Import Py Config AuthRoutes.

(** What the body of [verify_api_token] does when it is given no
    credentials. *)
Lemma verify_api_token_body_without_credentials (settings : Settings) :
  verify_api_token_body settings None
  = if require_auth settings
    then Rejected 401 "Missing authorization token"
    else Resolved "anonymous".
Proof. unfold verify_api_token_body. destruct (require_auth settings); reflexivity. Qed.

(** [security] is built with [auto_error] on, so it never hands the body
    an absent credential. *)
Lemma security_never_resolves_to_none (status : Z) (authorization : option string) :
  HTTPBearer_call status security authorization <> Resolved None.
Proof.
  unfold HTTPBearer_call, security.
  destruct (get_authorization_scheme_param authorization) as [sch cred].
  simpl. destruct (negb _); [discriminate |].
  destruct (negb _); discriminate.
Qed.

(** C2 does not hold of the code: on every protected route a request
    without an [Authorization] header is rejected by the bearer scheme
    itself, with the framework's "Not authenticated" answer, before the
    body of [verify_api_token] runs; this is so whether [require_auth] is
    on or off, so the request never proceeds as "anonymous". *)
Theorem headerless_request_rejected_by_bearer_scheme
        (status : Z) (settings : Settings) (r : route) :
  protected r = true
  /\ resolve_user status settings r None = Rejected status "Not authenticated".
Proof. destruct r; split; reflexivity. Qed.

(** With a bearer header and [require_auth] off, the request is anonymous. *)
Example bearer_header_anonymous (r : route) :
  resolve_user 403 default_settings r (Some "Bearer anything")
  = Resolved (Some "anonymous").
Proof. destruct r; reflexivity. Qed.

Example headerless_request_with_auth_off (r : route) :
  require_auth default_settings = false
  /\ resolve_user 403 default_settings r None = Rejected 403 "Not authenticated".
Proof. destruct r; split; reflexivity. Qed.

End Authentication.

(** ** The launcher *)

Section Preflight.
Import Py Config Launcher.

(** [check_model_path] as one condition. *)
Lemma check_model_path_spec (env : Env) (model_path : string) :
  check_model_path env model_path
  = (path_exists env model_path
     && path_exists env (os_path_join model_path "model_index.json")
     && (path_exists env (os_path_join model_path "config.json")
         || path_exists env (os_path_join model_path "configuration.json")))%bool.
Proof.
  unfold check_model_path. simpl.
  destruct (path_exists env model_path); simpl; [| reflexivity].
  destruct (path_exists env (os_path_join model_path "model_index.json"));
    simpl; [| reflexivity].
  destruct (path_exists env (os_path_join model_path "config.json")); simpl;
    [reflexivity |].
  destruct (path_exists env (os_path_join model_path "configuration.json"));
    reflexivity.
Qed.

(** The dependency loop on a list of packages: all imported gives the empty
    list; otherwise a non-empty list or an escaping [Exception]. *)
Lemma missing_among_spec (env : Env) (packages : list string) :
  if forallb (fun p => is_imported (import_package env p)) packages
  then missing_among env packages = Ok []
  else (exists p ps, missing_among env packages = Ok (p :: ps))
       \/ (exists msg, missing_among env packages
                       = Raise (Exn OtherException msg)).
Proof.
  induction packages as [|p ps IH]; simpl; [reflexivity |].
  destruct (import_package env p) as [| |msg]; simpl.
  - exact IH.
  - destruct (missing_among env ps) as [l|e] eqn:Hm; simpl.
    + left. eauto.
    + destruct (forallb _ ps).
      * discriminate.
      * destruct IH as [[q [qs Hq]] | [msg Hmsg]]; [discriminate |].
        right. exists msg. exact Hmsg.
  - right. exists msg. reflexivity.
Qed.

Lemma start_server_returns (env : Env) (host : string) (port workers : Z)
      (reload : bool) :
  start_server env host port workers reload = Ok tt.
Proof. unfold start_server. destruct (subprocess_run env _); reflexivity. Qed.

(** C8: with the checks not skipped, the launcher exits with 1 when some
    required package does not import or when the model directory, its
    [model_index.json], or both of [config.json] and [configuration.json]
    are missing, and with 0 otherwise; the outcome depends neither on the
    GPU probe nor on how the server run ends (return, interruption,
    failure to start). *)
Theorem launcher_exit_code
        (env : Env) (settings : Settings) (args : Args) :
  skip_checks args = false ->
  let dependencies_ok :=
    forallb (fun p => is_imported (import_package env p)) required_packages in
  let dir := model_path settings in
  let model_ok :=
    (path_exists env dir
     && path_exists env (os_path_join dir "model_index.json")
     && (path_exists env (os_path_join dir "config.json")
         || path_exists env (os_path_join dir "configuration.json")))%bool in
  exit_code (main env settings args)
  = if (dependencies_ok && model_ok)%bool then 0 else 1.
Proof.
  intros Hskip dependencies_ok dir model_ok.
  unfold main. rewrite Hskip. simpl negb. cbv iota.
  unfold check_dependencies.
  pose proof (missing_among_spec env required_packages) as Hdeps.
  fold dependencies_ok in Hdeps.
  destruct dependencies_ok.
  - rewrite Hdeps. simpl.
    rewrite check_model_path_spec. fold dir. fold model_ok.
    destruct model_ok; simpl; [| reflexivity].
    now rewrite start_server_returns.
  - destruct Hdeps as [[p [ps ->]] | [msg ->]]; reflexivity.
Qed.

Lemma launcher_exit_code_witness :
  let env := {| import_package := fun p => if String.eqb p "torch"
                                           then ImportFailed else Imported;
                path_exists := fun _ => true;
                probe_gpu := NoGpu;
                subprocess_run := fun _ => Interrupted;
                sys_executable := "python3" |} in
  exit_code (main env default_settings
                  {| host := "0.0.0.0"; port := 8000; workers := 1;
                     no_reload := false; skip_checks := false |}) = 1.
Proof.
  exact (launcher_exit_code
           {| import_package := fun p => if String.eqb p "torch"
                                         then ImportFailed else Imported;
              path_exists := fun _ => true;
              probe_gpu := NoGpu;
              subprocess_run := fun _ => Interrupted;
              sys_executable := "python3" |}
           default_settings
           {| host := "0.0.0.0"; port := 8000; workers := 1;
              no_reload := false; skip_checks := false |}
           eq_refl).
Defined.

(** With the checks skipped nothing is checked and the exit code is 0. *)
Lemma launcher_exit_code_skipped (env : Env) (settings : Settings) (args : Args) :
  skip_checks args = true -> exit_code (main env settings args) = 0.
Proof.
  intros H. unfold main. rewrite H. simpl. now rewrite start_server_returns.
Qed.

(** All checks pass, the GPU probe raises, the user interrupts the server:
    exit code 0, and the command that was run. *)
Example launcher_interrupted :
  let env := {| import_package := fun _ => Imported;
                path_exists := fun p =>
                  negb (String.eqb p (os_path_join (model_path default_settings)
                                                   "config.json"));
                probe_gpu := ProbeRaised "CUDA driver error";
                subprocess_run := fun _ => Interrupted;
                sys_executable := "python3" |} in
  exit_code (main env default_settings
                  {| host := "127.0.0.1"; port := 8080; workers := 2;
                     no_reload := true; skip_checks := false |}) = 0
  /\ server_command env "127.0.0.1" 8080 2 false
     = ["python3"; "-m"; "uvicorn"; "wan_video_api.main:app";
        "--host"; "127.0.0.1"; "--port"; "8080"; "--workers"; "2"].
Proof. split; vm_compute; reflexivity. Qed.

End Preflight.

(* ================================================================== *)
(** * Further properties                                               *)
(* ================================================================== *)

(** ** Bearer tokens *)

Section Tokens.
Import Py Config AuthRoutes.

Lemma lower_ascii_space (a : ascii) :
  Ascii.eqb (lower_ascii a) " " = Ascii.eqb a " ".
Proof. destruct a as [[] [] [] [] [] [] [] []]; reflexivity. Qed.

(** A header splits at its first space. *)
Lemma partition_space_split (h sch cred : string) :
  partition_space h = (sch, cred) -> cred <> "" -> h = sch ++ " " ++ cred.
Proof.
  revert sch cred. induction h as [|a h IH]; simpl; intros sch cred H Hne.
  - injection H as <- <-. congruence.
  - destruct (Ascii.eqb a " ") eqn:Ea.
    + apply Ascii.eqb_eq in Ea. subst a. injection H as <- <-. reflexivity.
    + destruct (partition_space h) as [h1 t1].
      injection H as <- <-. simpl. f_equal. now apply IH.
Qed.

Lemma partition_space_join (sch cred : string) :
  str_rfind " " sch = None ->
  partition_space (sch ++ " " ++ cred) = (sch, cred).
Proof.
  induction sch as [|a sch IH]; simpl in *; intros H; [reflexivity |].
  destruct (str_rfind " " sch); [discriminate |].
  destruct (Ascii.eqb a " "); [discriminate |].
  now rewrite IH.
Qed.

Lemma str_lower_keeps_spaces (s : string) :
  str_rfind " " (str_lower s) = str_rfind " " s.
Proof.
  induction s as [|a s IH]; simpl; [reflexivity |].
  now rewrite IH, lower_ascii_space.
Qed.

Lemma bearer_has_no_space (sch : string) :
  str_lower sch = "bearer" -> str_rfind " " sch = None.
Proof. intros H. now rewrite <- str_lower_keeps_spaces, H. Qed.

Lemma bearer_nonempty (sch cred : string) :
  str_lower sch = "bearer" ->
  truthy_str (sch ++ " " ++ cred) = true /\ truthy_str sch = true.
Proof. destruct sch; simpl; [discriminate | auto]. Qed.

(** What the bearer scheme makes of a well-formed header. *)
Lemma bearer_header_resolves (status : Z) (sch cred : string) :
  str_lower sch = "bearer" -> cred <> "" ->
  HTTPBearer_call status security (Some (sch ++ " " ++ cred))
  = Resolved (Some {| scheme := sch; credentials := cred |}).
Proof.
  intros Hs Hc. unfold HTTPBearer_call, get_authorization_scheme_param.
  destruct (bearer_nonempty sch cred Hs) as [H1 H2].
  rewrite H1, (partition_space_join _ _ (bearer_has_no_space _ Hs)), H2, Hs.
  apply truthy_str_nonempty in Hc. rewrite Hc. reflexivity.
Qed.

(** The other way round: credentials are only ever taken from a well-formed
    header. *)
Lemma bearer_resolved_header (status : Z) (h : string)
      (c : HTTPAuthorizationCredentials) :
  HTTPBearer_call status security (Some h) = Resolved (Some c) ->
  h = scheme c ++ " " ++ credentials c
  /\ str_lower (scheme c) = "bearer" /\ credentials c <> "".
Proof.
  unfold HTTPBearer_call, get_authorization_scheme_param, security. simpl.
  destruct (truthy_str h) eqn:Hh; simpl; [| discriminate].
  destruct (partition_space h) as [sch cred] eqn:Hp.
  destruct (truthy_str sch) eqn:Hsch; simpl; [| discriminate].
  destruct (truthy_str cred) eqn:Hcred; simpl; [| discriminate].
  destruct (String.eqb (str_lower sch) "bearer") eqn:Hb; simpl; [| discriminate].
  intros H. injection H as <-. simpl.
  apply String.eqb_eq in Hb. apply truthy_str_nonempty in Hcred.
  split; [| split; assumption].
  exact (partition_space_split h sch cred Hp Hcred).
Qed.

(** X1: with authentication required, a request is authenticated exactly
    when its header is a bearer scheme (in any letter case), one space, and
    the configured token, byte for byte. *)
Theorem configured_token_accepted_exactly
        (status : Z) (settings : Settings) (h : string) :
  require_auth settings = true ->
  (verify_api_token status settings (Some h) = Resolved "authenticated_user"
   <-> exists sch cred,
        h = sch ++ " " ++ cred /\ str_lower sch = "bearer" /\ cred <> ""
        /\ api_token settings = Some cred).
Proof.
  intros Hreq. unfold verify_api_token. split.
  - destruct (HTTPBearer_call status security (Some h)) as [[c|]|s d] eqn:Hcall;
      [| unfold verify_api_token_body; rewrite Hreq; discriminate
       | discriminate].
    unfold verify_api_token_body. rewrite Hreq. simpl.
    destruct (bearer_resolved_header _ _ _ Hcall) as [Hh [Hs Hc]].
    destruct (api_token settings) as [t|]; simpl; [| discriminate].
    destruct (truthy_str t); simpl; [| discriminate].
    destruct (String.eqb (credentials c) t) eqn:Et; simpl; [| discriminate].
    intros _. apply String.eqb_eq in Et. subst t.
    exists (scheme c), (credentials c). auto.
  - intros [sch [cred [-> [Hs [Hc Ht]]]]].
    rewrite (bearer_header_resolves status sch cred Hs Hc).
    unfold verify_api_token_body. rewrite Hreq, Ht. simpl.
    apply truthy_str_nonempty in Hc. rewrite Hc, String.eqb_refl. reflexivity.
Qed.

Lemma configured_token_accepted_exactly_witness :
  verify_api_token 403 (Samples.secured (Some "s3cret")) (Some "BEARER s3cret")
  = Resolved "authenticated_user".
Proof.
  apply (configured_token_accepted_exactly
           403 (Samples.secured (Some "s3cret")) "BEARER s3cret" eq_refl).
  exists "BEARER", "s3cret". repeat split. discriminate.
Defined.

(** X2: with authentication required and no token configured on the server
    ([None] or the empty string), every well-formed bearer header is
    answered 500; no token a client sends is accepted. *)
Theorem unconfigured_token_answers_500
        (status : Z) (settings : Settings) (sch cred : string) :
  require_auth settings = true ->
  api_token settings = None \/ api_token settings = Some "" ->
  str_lower sch = "bearer" -> cred <> "" ->
  verify_api_token status settings (Some (sch ++ " " ++ cred))
  = Rejected 500 "API token not configured on server".
Proof.
  intros Hreq Htok Hs Hc. unfold verify_api_token.
  rewrite (bearer_header_resolves status sch cred Hs Hc).
  unfold verify_api_token_body. rewrite Hreq.
  destruct Htok as [-> | ->]; reflexivity.
Qed.

Lemma unconfigured_token_answers_500_witness :
  verify_api_token 403 (Samples.secured (Some ""))
                   (Some ("Bearer" ++ " " ++ "guess"))
  = Rejected 500 "API token not configured on server".
Proof.
  apply unconfigured_token_answers_500.
  - reflexivity.
  - right. reflexivity.
  - reflexivity.
  - discriminate.
Defined.

(** X3: with authentication not required, a well-formed bearer header is
    taken as "anonymous" whatever token it carries and whatever token the
    server has. *)
Theorem auth_off_ignores_token
        (status : Z) (settings : Settings) (sch cred : string) :
  require_auth settings = false ->
  str_lower sch = "bearer" -> cred <> "" ->
  verify_api_token status settings (Some (sch ++ " " ++ cred))
  = Resolved "anonymous".
Proof.
  intros Hreq Hs Hc. unfold verify_api_token.
  rewrite (bearer_header_resolves status sch cred Hs Hc).
  unfold verify_api_token_body. now rewrite Hreq.
Qed.

Lemma auth_off_ignores_token_witness :
  verify_api_token 403 default_settings (Some ("bearer" ++ " " ++ "x"))
  = Resolved "anonymous".
Proof.
  apply auth_off_ignores_token; [reflexivity | reflexivity | discriminate].
Defined.

(** X4: in the authenticated variant with authentication required, the
    image route calls something (engine, pipeline, export, mkdir) only for
    a request that carries the configured token. *)
Theorem engine_reached_only_with_token
        (status : Z) (W : WanModel.World) (model : Engine.WanVideoModel)
        (settings : Settings) (authorization : option string)
        (form : Routes.ImageForm) :
  require_auth settings = true ->
  fst (AuthRoutes.generate_video status W model settings authorization form)
    <> [] ->
  exists sch cred,
    authorization = Some (sch ++ " " ++ cred)
    /\ str_lower sch = "bearer" /\ api_token settings = Some cred.
Proof.
  intros Hreq. unfold AuthRoutes.generate_video.
  destruct (verify_api_token status settings authorization) as [u|s d] eqn:Hv;
    simpl; [| congruence].
  intros _. revert Hv. unfold verify_api_token.
  destruct authorization as [h|]; [| discriminate].
  destruct (HTTPBearer_call status security (Some h)) as [[c|]|] eqn:Hcall;
    [| unfold verify_api_token_body; rewrite Hreq; discriminate
     | discriminate].
  unfold verify_api_token_body. rewrite Hreq. simpl.
  destruct (bearer_resolved_header _ _ _ Hcall) as [Hh [Hs Hc]].
  destruct (api_token settings) as [t|]; simpl; [| discriminate].
  destruct (truthy_str t); simpl; [| discriminate].
  destruct (String.eqb (credentials c) t) eqn:Et; simpl; [| discriminate].
  intros _. apply String.eqb_eq in Et. subst t.
  exists (scheme c), (credentials c). subst h. auto.
Qed.

Lemma engine_reached_only_with_token_witness :
  exists sch cred,
    Some "Bearer s3cret" = Some (sch ++ " " ++ cred)
    /\ str_lower sch = "bearer"
    /\ api_token (Samples.secured (Some "s3cret")) = Some cred.
Proof.
  apply (engine_reached_only_with_token
           403 (Samples.decoding_world "RGB" 64 64) Samples.loaded_engine
           (Samples.secured (Some "s3cret")) (Some "Bearer s3cret")
           Samples.image_form).
  - reflexivity.
  - vm_compute. discriminate.
Defined.

End Tokens.

(** ** What the preprocessor hands on *)

Section PreprocessorOutput.
Import Py Config WanModel ImageProcessor.

Lemma floor8_idempotent (n : Z) : floor8 (floor8 n) = floor8 n.
Proof. apply floor8_fixed, floor8_divide. Qed.

(** The shape of every returned image: RGB, and each dimension [floor8] of
    something, namely of the input dimension when the input fits
    [max_area]. *)
Lemma call_returns (W : World) (image : image_arg) (max_area : Z) (out : Image) :
  call W image max_area = Ok out ->
  exists img a b,
    load W image = Ok img /\ mode out = "RGB"
    /\ width out = floor8 a /\ height out = floor8 b
    /\ (width img * height img <= max_area ->
        a = width img /\ b = height img).
Proof.
  unfold call. destruct (load W image) as [img|e]; simpl; [| discriminate].
  assert (Hmode : mode (if negb (String.eqb (mode img) "RGB")
                        then convert img "RGB" else img) = "RGB").
  { destruct (String.eqb (mode img) "RGB") eqn:E; simpl; [| reflexivity].
    now apply String.eqb_eq in E. }
  destruct (rgb_size img) as [Hw Hh].
  set (img' := if negb (String.eqb (mode img) "RGB") then convert img "RGB"
               else img) in *.
  rewrite Hw, Hh.
  destruct (width img * height img >? max_area) eqn:Hgt.
  - destruct (int_truediv max_area _) as [ratio|e]; simpl; [| discriminate].
    destruct (scaled (width img) _) as [tw|e]; simpl; [| discriminate].
    destruct (scaled (height img) _) as [th|e]; simpl; [| discriminate].
    intros H. apply resize_returns in H. destruct H as [_ [_ ->]].
    exists img, tw, th. simpl.
    repeat split; auto.
    all: rewrite Z.gtb_ltb in Hgt; apply Z.ltb_lt in Hgt; lia.
  - intros H. exists img, (width img), (height img).
    split; [reflexivity |].
    destruct (floor8 (width img) =? width img) eqn:Ew;
      destruct (floor8 (height img) =? height img) eqn:Eh; simpl in H.
    1: { injection H as <-. apply Z.eqb_eq in Ew, Eh.
         repeat split; congruence. }
    all: apply resize_returns in H; destruct H as [_ [_ ->]]; simpl; auto.
Qed.

(** X5: whatever the input (a decoded image, a path, a URL) and whichever
    branch is taken, an image the preprocessor returns is in mode RGB and
    has a width and a height that are multiples of 8. *)
Theorem preprocessor_output_rgb_multiple_of_8
        (W : World) (image : image_arg) (max_area : Z) (out : Image) :
  call W image max_area = Ok out ->
  mode out = "RGB" /\ (8 | width out) /\ (8 | height out).
Proof.
  intros H. apply call_returns in H.
  destruct H as [img [a [b [_ [Hmode [Hw [Hh _]]]]]]].
  rewrite Hw, Hh. split; [exact Hmode |].
  split; apply floor8_divide.
Qed.

Lemma preprocessor_output_rgb_multiple_of_8_witness :
  mode {| mode := "RGB"; width := 1264; height := 704 |} = "RGB"
  /\ (8 | 1264) /\ (8 | 704).
Proof.
  apply (preprocessor_output_rgb_multiple_of_8
           (Samples.decoding_world "RGB" 0 0)
           (ByImage {| mode := "CMYK"; width := 1920; height := 1080 |})
           901120 {| mode := "RGB"; width := 1264; height := 704 |}).
  vm_compute. reflexivity.
Defined.

(** X6: on images that fit [max_area] the preprocessor is idempotent: its
    output, given back to it with the same [max_area], is returned as it
    is.  (Sizes are non-negative, as those of decoded images are.) *)
Theorem preprocessor_idempotent_within_max_area
        (W : World) (img out : Image) (max_area : Z) :
  0 <= width img -> 0 <= height img ->
  width img * height img <= max_area ->
  call W (ByImage img) max_area = Ok out ->
  call W (ByImage out) max_area = Ok out.
Proof.
  intros Hw0 Hh0 Harea Hcall.
  destruct (call_returns _ _ _ _ Hcall)
    as [img0 [a [b [Hload [Hmode [Hwo [Hho Hfit]]]]]]].
  injection Hload as <-. destruct (Hfit Harea) as [-> ->].
  assert (Hdw : (8 | width out)) by (rewrite Hwo; apply floor8_divide).
  assert (Hdh : (8 | height out)) by (rewrite Hho; apply floor8_divide).
  pose proof (floor8_bounds (width img)) as Bw.
  pose proof (floor8_bounds (height img)) as Bh.
  assert (0 <= width out)
    by (rewrite Hwo; unfold floor8;
        pose proof (Z.div_pos (width img) 8 Hw0 ltac:(lia)); lia).
  assert (0 <= height out)
    by (rewrite Hho; unfold floor8;
        pose proof (Z.div_pos (height img) 8 Hh0 ltac:(lia)); lia).
  unfold call. simpl. rewrite Hmode. simpl.
  replace (width out * height out >? max_area) with false
    by (symmetry; rewrite Z.gtb_ltb; apply Z.ltb_ge; nia).
  rewrite (floor8_fixed _ Hdw), (floor8_fixed _ Hdh), !Z.eqb_refl.
  reflexivity.
Qed.

Lemma preprocessor_idempotent_within_max_area_witness :
  call bare_world (ByImage {| mode := "RGB"; width := 1000; height := 640 |})
       901120
  = Ok {| mode := "RGB"; width := 1000; height := 640 |}.
Proof.
  apply (preprocessor_idempotent_within_max_area
           bare_world {| mode := "RGBA"; width := 1003; height := 647 |}).
  - simpl. lia.
  - simpl. lia.
  - simpl. lia.
  - vm_compute. reflexivity.
Defined.

End PreprocessorOutput.

(** ** The engine on a loaded model *)

Section LoadedEngine.
Import Py Config FileUtils WanModel Engine Routes.

(** The keyword arguments [generate_video] builds for the pipeline. *)
Lemma generate_video_loaded
      (W : World) (model : WanVideoModel) (p : Pipeline) (ip : unit)
      (img : Image) (prompt negative_prompt : string)
      (num_frames num_inference_steps : Z) (guidance_scale : float)
      (max_area : Z) :
  pipe model = Some p -> image_processor model = Some ip ->
  Engine.generate_video W model img prompt negative_prompt num_frames
                        num_inference_steps guidance_scale max_area
  = match ImageProcessor.call W (ByImage img) max_area with
    | Raise e => ([EngineCalled "generate_video"], Raise e)
    | Ok processed =>
        let args := {| pa_image := Some processed;
                       pa_prompt := prompt;
                       pa_negative_prompt := negative_prompt;
                       pa_height := height processed;
                       pa_width := width processed;
                       pa_num_frames := num_frames;
                       pa_guidance_scale := guidance_scale;
                       pa_num_inference_steps := num_inference_steps |} in
        ([EngineCalled "generate_video"; PipelineCalled args],
         match p args with
         | Ok frames => first_frames frames
         | Raise e => Raise e
         end)
    end.
Proof.
  intros Hp Hip. unfold Engine.generate_video, is_loaded.
  rewrite Hp, Hip. simpl.
  destruct (ImageProcessor.call W (ByImage img) max_area) as [processed|e];
    simpl.
  - destruct (p _) as [frames|e]; simpl.
    + destruct frames as [|f fs]; simpl; reflexivity.
    + destruct (is_Exception (exn_cls e)); reflexivity.
  - destruct (is_Exception (exn_cls e)); reflexivity.
Qed.

(** The trace and the keyword arguments behind returned frames. *)
Lemma generate_video_shape
      (W : World) (model : WanVideoModel)
      (img : Image) (prompt negative_prompt : string)
      (num_frames num_inference_steps : Z) (guidance_scale : float)
      (max_area : Z) (trace : list event) (frames : ndarray) :
  Engine.generate_video W model img prompt negative_prompt num_frames
                        num_inference_steps guidance_scale max_area
  = (trace, Ok frames) ->
  exists args,
    trace = [EngineCalled "generate_video"; PipelineCalled args]
    /\ pa_prompt args = prompt
    /\ pa_negative_prompt args = negative_prompt
    /\ pa_num_frames args = num_frames
    /\ pa_num_inference_steps args = num_inference_steps
    /\ pa_guidance_scale args = guidance_scale.
Proof.
  intros H.
  destruct (pipe model) as [p|] eqn:Hp;
    [| revert H; unfold Engine.generate_video, is_loaded; rewrite Hp;
       discriminate].
  destruct (image_processor model) as [ip|] eqn:Hip;
    [| revert H; unfold Engine.generate_video, is_loaded; rewrite Hp, Hip;
       discriminate].
  rewrite (generate_video_loaded W model p ip) in H by assumption.
  destruct (ImageProcessor.call W (ByImage img) max_area) as [processed|e];
    [| discriminate].
  simpl in H. injection H as <- _.
  eexists. split; [reflexivity |]. simpl. auto.
Qed.

(** X7: when [generate_video] returns frames, the pipeline was called exactly
    once, the frames are the first sequence that call produced, and the call
    carried the caller's prompts and numbers together with the preprocessed
    image: RGB, of the height and width passed alongside it, both multiples
    of 8. *)
Theorem generate_video_returns_first_frames_of_one_call
        (W : World) (model : WanVideoModel)
        (img : Image) (prompt negative_prompt : string)
        (num_frames num_inference_steps : Z) (guidance_scale : float)
        (max_area : Z) (trace : list event) (frames : ndarray) :
  Engine.generate_video W model img prompt negative_prompt num_frames
                        num_inference_steps guidance_scale max_area
  = (trace, Ok frames) ->
  exists p processed rest,
    pipe model = Some p
    /\ ImageProcessor.call W (ByImage img) max_area = Ok processed
    /\ let args := {| pa_image := Some processed;
                      pa_prompt := prompt;
                      pa_negative_prompt := negative_prompt;
                      pa_height := height processed;
                      pa_width := width processed;
                      pa_num_frames := num_frames;
                      pa_guidance_scale := guidance_scale;
                      pa_num_inference_steps := num_inference_steps |} in
       trace = [EngineCalled "generate_video"; PipelineCalled args]
       /\ p args = Ok (frames :: rest)
       /\ mode processed = "RGB"
       /\ (8 | pa_height args) /\ (8 | pa_width args).
Proof.
  intros H.
  destruct (pipe model) as [p|] eqn:Hp;
    [| revert H; unfold Engine.generate_video, is_loaded; rewrite Hp;
       discriminate].
  destruct (image_processor model) as [ip|] eqn:Hip;
    [| revert H; unfold Engine.generate_video, is_loaded; rewrite Hp, Hip;
       discriminate].
  rewrite (generate_video_loaded W model p ip) in H by assumption.
  destruct (ImageProcessor.call W (ByImage img) max_area) as [processed|e]
    eqn:Hcall; [| discriminate].
  simpl in H. injection H as <- Hres.
  destruct (p _) as [fs|e] eqn:Hrun; [| discriminate].
  destruct fs as [|f rest]; [discriminate |]. injection Hres as ->.
  destruct (call_returns W (ByImage img) max_area processed Hcall)
    as [img0 [a [b [_ [Hm [Hw [Hh _]]]]]]].
  assert (Hdw : (8 | width processed)) by (rewrite Hw; apply floor8_divide).
  assert (Hdh : (8 | height processed)) by (rewrite Hh; apply floor8_divide).
  exists p, processed, rest. simpl.
  split; [reflexivity |]. split; [reflexivity |]. split; [reflexivity |].
  split; [exact Hrun |]. split; [exact Hm |]. split; assumption.
Qed.

Lemma generate_video_returns_first_frames_of_one_call_witness :
  exists p processed rest,
    pipe Samples.loaded_engine = Some p
    /\ ImageProcessor.call bare_world
         (ByImage {| mode := "L"; width := 100; height := 50 |}) 901120
       = Ok processed
    /\ let args := {| pa_image := Some processed;
                      pa_prompt := "a cat";
                      pa_negative_prompt := "blur";
                      pa_height := height processed;
                      pa_width := width processed;
                      pa_num_frames := 25;
                      pa_guidance_scale := five;
                      pa_num_inference_steps := 20 |} in
       [EngineCalled "generate_video";
        PipelineCalled
          {| pa_image := Some {| mode := "RGB"; width := 96; height := 48 |};
             pa_prompt := "a cat"; pa_negative_prompt := "blur";
             pa_height := 48; pa_width := 96; pa_num_frames := 25;
             pa_guidance_scale := five; pa_num_inference_steps := 20 |}]
       = [EngineCalled "generate_video"; PipelineCalled args]
       /\ p args = Ok ([1; 2; 3] :: rest)
       /\ mode processed = "RGB"
       /\ (8 | pa_height args) /\ (8 | pa_width args).
Proof.
  apply (generate_video_returns_first_frames_of_one_call
           bare_world Samples.loaded_engine
           {| mode := "L"; width := 100; height := 50 |}
           "a cat" "blur" 25 20 five 901120).
  vm_compute. reflexivity.
Defined.

(** X8: on a loaded engine every exception of [generate_video] is the
    preprocessor's (then the pipeline is not called), the pipeline's, or the
    [IndexError] of an empty list of frames; it is passed on as raised, and
    the pipeline is called at most once. *)
Theorem generate_video_passes_errors_on
        (W : World) (model : WanVideoModel)
        (img : Image) (prompt negative_prompt : string)
        (num_frames num_inference_steps : Z) (guidance_scale : float)
        (max_area : Z) (trace : list event) (e : exn) :
  is_loaded model = true ->
  Engine.generate_video W model img prompt negative_prompt num_frames
                        num_inference_steps guidance_scale max_area
  = (trace, Raise e) ->
  (ImageProcessor.call W (ByImage img) max_area = Raise e
   /\ filter pipeline_call trace = [])
  \/ (exists p args,
         pipe model = Some p
         /\ filter pipeline_call trace = [PipelineCalled args]
         /\ (p args = Raise e
             \/ (p args = Ok []
                 /\ e = Exn IndexError "list index out of range"))).
Proof.
  intros Hl H. apply is_loaded_true_iff in Hl. destruct Hl as [p [ip [Hp Hip]]].
  rewrite (generate_video_loaded W model p ip) in H by assumption.
  destruct (ImageProcessor.call W (ByImage img) max_area) as [processed|e'].
  - simpl in H. injection H as <- Hres. right.
    eexists p, _. split; [assumption |]. split; [reflexivity |].
    destruct (p _) as [fs|e'']; [| left; injection Hres as ->; reflexivity].
    destruct fs as [|f rest]; [| discriminate].
    right. split; [reflexivity |].
    unfold first_frames, raise in Hres. now injection Hres.
  - injection H as <- <-. left. split; reflexivity.
Qed.

Lemma generate_video_passes_errors_on_witness :
  (ImageProcessor.call bare_world
     (ByImage {| mode := "RGB"; width := 10; height := 10 |}) (-5)
   = Raise (Exn TypeError
              "int() argument must be a string, a bytes-like object or a real number, not 'complex'")
   /\ filter pipeline_call [EngineCalled "generate_video"] = [])
  \/ (exists p args,
         pipe Samples.loaded_engine = Some p
         /\ filter pipeline_call [EngineCalled "generate_video"]
            = [PipelineCalled args]
         /\ (p args
             = Raise (Exn TypeError
                        "int() argument must be a string, a bytes-like object or a real number, not 'complex'")
             \/ (p args = Ok []
                 /\ Exn TypeError
                      "int() argument must be a string, a bytes-like object or a real number, not 'complex'"
                    = Exn IndexError "list index out of range"))).
Proof.
  apply (generate_video_passes_errors_on
           bare_world Samples.loaded_engine
           {| mode := "RGB"; width := 10; height := 10 |}
           "a cat" "blur" 25 20 five (-5)).
  - reflexivity.
  - vm_compute. reflexivity.
Defined.

End LoadedEngine.

(** ** The image route, end to end *)

Section ImageRoute.
Import Py Config FileUtils WanModel Engine Routes.

(** X9: every way [POST /generate_video] can end.  Not loaded: 503.
    Loaded and the upload refused: 400 with the validator's message; in both
    cases nothing was called.  Otherwise: the file response, or 500 with
    "Error generating video: " and the message of the [Exception] raised on
    the way, or an exception that is no [Exception] and leaves the handler. *)
Theorem image_route_outcomes
        (W : World) (model : WanVideoModel) (settings : Settings)
        (form : ImageForm) :
  let r := Routes.generate_video W model settings form in
  (is_loaded model = false /\ r = ([], HTTPException 503 "Model not loaded"))
  \/ (is_loaded model = true
      /\ exists msg,
          validate_image_file (image form) settings = Raise (Exn ValueError msg)
          /\ r = ([], HTTPException 400 msg))
  \/ (is_loaded model = true
      /\ validate_image_file (image form) settings = Ok tt
      /\ ((exists resp, snd r = Respond resp)
          \/ (exists e, is_Exception (exn_cls e) = true
                        /\ snd r = HTTPException 500
                                     ("Error generating video: " ++ exn_msg e))
          \/ (exists e, is_Exception (exn_cls e) = false
                        /\ snd r = Unhandled e))).
Proof.
  unfold Routes.generate_video.
  destruct (is_loaded model); simpl; [| left; auto].
  right.
  destruct (validate_image_file_cases (image form) settings) as [Hok | [msg Hmsg]].
  - right. rewrite Hok. split; [reflexivity |]. split; [reflexivity |].
    unfold guard_500.
    match goal with
    | |- context [match ?body with (_, _) => _ end] => destruct body as [t [resp|e]]
    end; simpl.
    + left. eauto.
    + destruct (is_Exception (exn_cls e)) eqn:He; simpl; eauto.
  - left. rewrite Hmsg. simpl. split; [reflexivity |]. eauto.
Qed.

(** What [export_and_respond] leaves behind when it returns. *)
Lemma export_and_respond_returns
      (W : World) (model : WanVideoModel) (settings : Settings)
      (prefix : string) (frames : ndarray) (t : list event)
      (resp : FileResponse) :
  export_and_respond W model settings prefix frames = (t, Ok resp) ->
  let name := prefix ++ uuid4_hex W ++ ".mp4" in
  let out := {| in_dir := output_dir settings; file_name := name |} in
  t = [MkdirCalled (output_dir settings); EngineCalled "export_video";
       ExportCalled out 24]
  /\ resp = {| path := out; media_type := "video/mp4"; filename := name;
               headers := [("Content-Disposition",
                            "attachment; filename=" ++ name)] |}
  /\ export_to_video W frames out 24 = Ok tt.
Proof.
  unfold export_and_respond, export_video. simpl.
  destruct (mkdir_parents W (output_dir settings)) as [u|e]; simpl;
    [| discriminate].
  destruct (export_to_video W frames _ 24) as [[]|e] eqn:Hexp; simpl.
  - intros H. injection H as <- <-. auto.
  - destruct (is_Exception (exn_cls e)); discriminate.
Qed.

(** X10: when [POST /generate_video] answers with a file, exactly this
    happened, in this order: the engine was asked to generate, the pipeline
    ran once with the form's prompt and with each number either the form's
    non-zero value or the configured default, the output directory was made,
    and the frames were exported at 24 fps to the path that is served,
    [generated_video_<token>.mp4] in the output directory, as an attachment
    of type video/mp4. *)
Theorem image_route_success
        (W : World) (model : WanVideoModel) (settings : Settings)
        (form : ImageForm) (trace : list event) (resp : FileResponse) :
  Routes.generate_video W model settings form = (trace, Respond resp) ->
  exists args,
    trace = [EngineCalled "generate_video"; PipelineCalled args;
             MkdirCalled (output_dir settings); EngineCalled "export_video";
             ExportCalled (path resp) 24]
    /\ pa_prompt args = prompt form
    /\ pa_negative_prompt args
       = form_default (negative_prompt form) default_negative_prompt
    /\ pa_num_frames args
       = int_or (num_frames form) (default_num_frames settings)
    /\ pa_num_inference_steps args
       = int_or (num_inference_steps form)
                (default_num_inference_steps settings)
    /\ pa_guidance_scale args
       = float_or (guidance_scale form) (default_guidance_scale settings)
    /\ filename resp = "generated_video_" ++ uuid4_hex W ++ ".mp4"
    /\ path resp = {| in_dir := output_dir settings;
                      file_name := filename resp |}
    /\ media_type resp = "video/mp4"
    /\ headers resp = [("Content-Disposition",
                        "attachment; filename=" ++ filename resp)].
Proof.
  unfold Routes.generate_video.
  destruct (is_loaded model) eqn:Hl; simpl; [| discriminate].
  destruct (validate_image_file (image form) settings) as [u|e0];
    [| destruct (is_ValueError (exn_cls e0)); discriminate].
  unfold guard_500.
  destruct (Image_open_bytes W (content (image form))) as [pil|e0] eqn:Hopen;
    simpl.
  - match goal with
    | |- context [Engine.generate_video ?a ?b ?c ?d ?e ?f ?g ?h ?i] =>
        destruct (Engine.generate_video a b c d e f g h i)
          as [t [frames|e1]] eqn:Hgen
    end; simpl.
    + destruct (export_and_respond W model settings "generated_video_" frames)
        as [t' [r|e2]] eqn:Hexp; simpl.
      * intros H. injection H as <- <-.
        apply export_and_respond_returns in Hexp.
        destruct Hexp as [-> [-> _]].
        apply generate_video_shape in Hgen.
        destruct Hgen as [args [-> Hargs]].
        exists args. simpl. tauto.
      * destruct (is_Exception (exn_cls e2)); discriminate.
    + destruct (is_Exception (exn_cls e1)); discriminate.
  - destruct (is_Exception (exn_cls e0)); discriminate.
Qed.

Lemma image_route_success_witness :
  exists args,
    [EngineCalled "generate_video";
     PipelineCalled
       {| pa_image := Some {| mode := "RGB"; width := 640; height := 480 |};
          pa_prompt := "a cat"; pa_negative_prompt := default_negative_prompt;
          pa_height := 480; pa_width := 640; pa_num_frames := 25;
          pa_guidance_scale := five; pa_num_inference_steps := 50 |};
     MkdirCalled "outputs"; EngineCalled "export_video";
     ExportCalled
       {| in_dir := "outputs";
          file_name := "generated_video_0123456789abcdef0123456789abcdef.mp4" |}
       24]
    = [EngineCalled "generate_video"; PipelineCalled args;
       MkdirCalled (output_dir default_settings); EngineCalled "export_video";
       ExportCalled
         {| in_dir := "outputs";
            file_name := "generated_video_0123456789abcdef0123456789abcdef.mp4" |}
         24]
    /\ pa_prompt args = "a cat"
    /\ pa_negative_prompt args = default_negative_prompt
    /\ pa_num_frames args = 25
    /\ pa_num_inference_steps args = 50
    /\ pa_guidance_scale args = five
    /\ "generated_video_0123456789abcdef0123456789abcdef.mp4"
       = "generated_video_" ++ "0123456789abcdef0123456789abcdef" ++ ".mp4"
    /\ {| in_dir := "outputs";
          file_name := "generated_video_0123456789abcdef0123456789abcdef.mp4" |}
       = {| in_dir := "outputs";
            file_name := "generated_video_0123456789abcdef0123456789abcdef.mp4" |}
    /\ "video/mp4" = "video/mp4"
    /\ [("Content-Disposition",
         "attachment; filename=generated_video_0123456789abcdef0123456789abcdef.mp4")]
       = [("Content-Disposition",
           "attachment; filename="
             ++ "generated_video_0123456789abcdef0123456789abcdef.mp4")].
Proof.
  apply (image_route_success
           (Samples.decoding_world "RGB" 640 480) Samples.loaded_engine
           default_settings
           {| image := upload (Some "photo.png") SizeNone;
              prompt := "a cat"; negative_prompt := None;
              num_frames := Some 25; num_inference_steps := Some 0;
              guidance_scale := None; max_area := None |}
           _
           {| path := {| in_dir := "outputs";
                         file_name := "generated_video_0123456789abcdef0123456789abcdef.mp4" |};
              media_type := "video/mp4";
              filename := "generated_video_0123456789abcdef0123456789abcdef.mp4";
              headers := [("Content-Disposition",
                           "attachment; filename=generated_video_0123456789abcdef0123456789abcdef.mp4")] |}).
  vm_compute. reflexivity.
Defined.

(** X11: on a loaded engine, an upload that passes validation but does not
    decode as an image is answered 500 with the decoder's message, and
    neither the engine nor anything else is called. *)
Theorem undecodable_upload_answers_500
        (W : World) (model : WanVideoModel) (settings : Settings)
        (form : ImageForm) (e : exn) :
  is_loaded model = true ->
  validate_image_file (image form) settings = Ok tt ->
  Image_open_bytes W (content (image form)) = Raise e ->
  is_Exception (exn_cls e) = true ->
  Routes.generate_video W model settings form
  = ([], HTTPException 500 ("Error generating video: " ++ exn_msg e)).
Proof.
  intros Hl Hv Hopen He. unfold Routes.generate_video, guard_500.
  rewrite Hl, Hv, Hopen. simpl. rewrite He. reflexivity.
Qed.

Lemma undecodable_upload_answers_500_witness :
  Routes.generate_video
    bare_world Samples.loaded_engine default_settings
    {| image := {| FileUtils.filename := Some "notes.png"; size := SizeInt 12;
                   content := "hello, world" |};
       prompt := "a cat"; negative_prompt := None; num_frames := None;
       num_inference_steps := None; guidance_scale := None;
       max_area := None |}
  = ([], HTTPException 500
           "Error generating video: cannot identify image file").
Proof.
  apply (undecodable_upload_answers_500
           bare_world Samples.loaded_engine default_settings
           {| image := {| FileUtils.filename := Some "notes.png";
                          size := SizeInt 12; content := "hello, world" |};
              prompt := "a cat"; negative_prompt := None; num_frames := None;
              num_inference_steps := None; guidance_scale := None;
              max_area := None |}
           (Exn OtherException "cannot identify image file"));
    reflexivity.
Defined.

(** X12: when the export of generated frames fails with an [Exception], the
    request is answered 500 with the export's message although the pipeline
    has run: the trace holds the pipeline call and the failed export. *)
Theorem failed_export_answers_500_after_generation
        (W : World) (model : WanVideoModel) (settings : Settings)
        (form : ImageForm) (pil : Image) (t : list event) (frames : ndarray)
        (e : exn) :
  is_loaded model = true ->
  validate_image_file (image form) settings = Ok tt ->
  Image_open_bytes W (content (image form)) = Ok pil ->
  Engine.generate_video
    W model pil (prompt form)
    (form_default (negative_prompt form) default_negative_prompt)
    (int_or (num_frames form) (default_num_frames settings))
    (int_or (num_inference_steps form) (default_num_inference_steps settings))
    (float_or (guidance_scale form) (default_guidance_scale settings))
    (int_or (max_area form) (default_max_area settings))
  = (t, Ok frames) ->
  mkdir_parents W (output_dir settings) = Ok tt ->
  (forall out, export_to_video W frames out 24 = Raise e) ->
  is_Exception (exn_cls e) = true ->
  exists out,
    Routes.generate_video W model settings form
    = ((t ++ [MkdirCalled (output_dir settings); EngineCalled "export_video";
              ExportCalled out 24])%list,
       HTTPException 500 ("Error generating video: " ++ exn_msg e))
    /\ filter pipeline_call t <> [].
Proof.
  intros Hl Hv Hopen Hgen Hmk Hexp He.
  unfold Routes.generate_video, guard_500.
  rewrite Hl, Hv, Hopen. simpl. rewrite Hgen. simpl.
  unfold export_and_respond, export_video. simpl.
  rewrite Hmk. simpl. rewrite Hexp. simpl. rewrite He. simpl. rewrite He.
  eexists. split; [reflexivity |].
  apply generate_video_shape in Hgen. destruct Hgen as [args [-> _]].
  discriminate.
Qed.

Lemma failed_export_answers_500_after_generation_witness :
  exists out,
    Routes.generate_video
      (Samples.export_failing_world "RGB" 64 64) Samples.loaded_engine
      default_settings
      {| image := upload (Some "photo.png") SizeNone;
         prompt := "a cat"; negative_prompt := Some "blur";
         num_frames := None; num_inference_steps := None;
         guidance_scale := None; max_area := None |}
    = (([EngineCalled "generate_video";
         PipelineCalled
           {| pa_image := Some {| mode := "RGB"; width := 64; height := 64 |};
              pa_prompt := "a cat"; pa_negative_prompt := "blur";
              pa_height := 64; pa_width := 64; pa_num_frames := 121;
              pa_guidance_scale := five; pa_num_inference_steps := 50 |}]
          ++ [MkdirCalled (output_dir default_settings);
              EngineCalled "export_video"; ExportCalled out 24])%list,
       HTTPException 500
         ("Error generating video: "
            ++ exn_msg (Exn OtherException "No space left on device")))
    /\ filter pipeline_call
         [EngineCalled "generate_video";
          PipelineCalled
            {| pa_image := Some {| mode := "RGB"; width := 64; height := 64 |};
               pa_prompt := "a cat"; pa_negative_prompt := "blur";
               pa_height := 64; pa_width := 64; pa_num_frames := 121;
               pa_guidance_scale := five; pa_num_inference_steps := 50 |}]
       <> [].
Proof.
  apply (failed_export_answers_500_after_generation
           (Samples.export_failing_world "RGB" 64 64) Samples.loaded_engine
           default_settings
           {| image := upload (Some "photo.png") SizeNone;
              prompt := "a cat"; negative_prompt := Some "blur";
              num_frames := None; num_inference_steps := None;
              guidance_scale := None; max_area := None |}
           {| mode := "RGB"; width := 64; height := 64 |}
           _ [1; 2; 3]).
  - reflexivity.
  - reflexivity.
  - reflexivity.
  - vm_compute. reflexivity.
  - reflexivity.
  - intros out. reflexivity.
  - reflexivity.
Defined.

End ImageRoute.

(** ** Loading, startup and reload *)

Section LoadingModel.
Import Py Config FileUtils WanModel Engine Loading App Routes.

(** The three ways [load_model] can end. *)
Lemma load_model_cases (W : World) (L : Loader) (settings : Settings)
      (self : WanVideoModel) :
  let r := load_model W L settings self in
  (fst r = self /\ exists e, snd r = Raise e)
  \/ (exists p e,
         fst r = set_pipe self p /\ snd r = Raise e
         /\ enable_sequential_cpu_offload L p = Raise e)
  \/ (exists p, fst r = set_image_processor (set_pipe self p)
                /\ snd r = Ok tt).
Proof.
  unfold load_model.
  destruct (model_dir_exists L (model_path settings)); simpl;
    [| left; split; [reflexivity | eexists; reflexivity]].
  destruct (vae_from_pretrained L _) as [vae|e]; simpl;
    [| left; split; [reflexivity | eexists; reflexivity]].
  destruct (pipeline_from_pretrained L _ vae (Engine.dtype self)) as [p|e];
    simpl; [| left; split; [reflexivity | eexists; reflexivity]].
  destruct (cuda_is_available W && _)%bool.
  - destruct (enable_sequential_cpu_offload L p) as [u|e] eqn:Hoff; simpl.
    + right. right. exists p. split; reflexivity.
    + right. left. exists p, e. repeat split. exact Hoff.
  - right. right. exists p. split; reflexivity.
Qed.

Lemma load_model_success_state
      (W : World) (L : Loader) (settings : Settings) (self : WanVideoModel) :
  snd (load_model W L settings self) = Ok tt ->
  is_loaded (fst (load_model W L settings self)) = true.
Proof.
  destruct (load_model_cases W L settings self)
    as [[_ [e He]] | [[p [e [_ [He _]]]] | [p [Hs _]]]]; simpl in *.
  - rewrite He. discriminate.
  - rewrite He. discriminate.
  - intros _. now rewrite Hs.
Qed.

(** X13: a load that returns leaves the engine loaded, with the device and
    the precision it had. *)
Theorem load_model_success_loads
        (W : World) (L : Loader) (settings : Settings) (self : WanVideoModel) :
  snd (load_model W L settings self) = Ok tt ->
  is_loaded (fst (load_model W L settings self)) = true
  /\ Engine.device (fst (load_model W L settings self)) = Engine.device self
  /\ Engine.dtype (fst (load_model W L settings self)) = Engine.dtype self.
Proof.
  destruct (load_model_cases W L settings self)
    as [[_ [e He]] | [[p [e [_ [He _]]]] | [p [Hs _]]]]; simpl in *.
  - rewrite He. discriminate.
  - rewrite He. discriminate.
  - intros _. rewrite Hs. repeat split.
Qed.

Lemma load_model_success_loads_witness :
  is_loaded (fst (load_model bare_world Samples.working_loader default_settings
                             (init bare_world default_settings))) = true.
Proof.
  apply (load_model_success_loads
           bare_world Samples.working_loader default_settings
           (init bare_world default_settings)).
  reflexivity.
Defined.

(** X14: a loaded engine stays loaded through [load_model], however the
    call ends: a failed reload does not put the engine back into the
    unloaded state. *)
Theorem load_model_keeps_loaded
        (W : World) (L : Loader) (settings : Settings) (self : WanVideoModel) :
  is_loaded self = true ->
  is_loaded (fst (load_model W L settings self)) = true.
Proof.
  intros Hl. apply is_loaded_true_iff in Hl. destruct Hl as [p0 [ip [Hp Hip]]].
  destruct (load_model_cases W L settings self)
    as [[Hs _] | [[p [e [Hs _]]] | [p [Hs _]]]]; simpl in *; rewrite Hs.
  - unfold is_loaded. now rewrite Hp, Hip.
  - unfold is_loaded, set_pipe. simpl. now rewrite Hip.
  - reflexivity.
Qed.

Lemma load_model_keeps_loaded_witness :
  snd (load_model bare_world Samples.missing_loader default_settings
                  Samples.loaded_engine)
  = Raise (Exn FileNotFoundError
             "Model path does not exist: /home/chenyu/.cache/modelscope/hub/models/Wan-AI/Wan2___2-TI2V-5B-Diffusers")
  /\ is_loaded (fst (load_model bare_world Samples.missing_loader
                                default_settings Samples.loaded_engine))
     = true.
Proof.
  split; [reflexivity |].
  apply (load_model_keeps_loaded
           bare_world Samples.missing_loader default_settings
           Samples.loaded_engine).
  reflexivity.
Defined.

(** X15: a load that raises has either left the engine as it was, or, when
    it is the switch to sequential offload that raised, has replaced the
    pipeline and left the preprocessor as it was. *)
Theorem load_model_failure_state
        (W : World) (L : Loader) (settings : Settings) (self : WanVideoModel)
        (e : exn) :
  snd (load_model W L settings self) = Raise e ->
  fst (load_model W L settings self) = self
  \/ exists p,
      enable_sequential_cpu_offload L p = Raise e
      /\ pipe (fst (load_model W L settings self)) = Some p
      /\ image_processor (fst (load_model W L settings self))
         = image_processor self.
Proof.
  destruct (load_model_cases W L settings self)
    as [[Hs _] | [[p [e' [Hs [He Hoff]]]] | [p [_ Hok]]]]; simpl in *.
  - auto.
  - rewrite He. intros H. injection H as <-. right. exists p.
    rewrite Hs. auto.
  - rewrite Hok. discriminate.
Qed.

Lemma load_model_failure_state_witness :
  fst (load_model Samples.gpu_world Samples.offload_failing_loader
                  default_settings (init Samples.gpu_world default_settings))
  = init Samples.gpu_world default_settings
  \/ exists p,
      enable_sequential_cpu_offload Samples.offload_failing_loader p
      = Raise (Exn RuntimeError "CUDA out of memory")
      /\ pipe (fst (load_model Samples.gpu_world Samples.offload_failing_loader
                               default_settings
                               (init Samples.gpu_world default_settings)))
         = Some p
      /\ image_processor
           (fst (load_model Samples.gpu_world Samples.offload_failing_loader
                            default_settings
                            (init Samples.gpu_world default_settings)))
         = image_processor (init Samples.gpu_world default_settings).
Proof.
  apply (load_model_failure_state
           Samples.gpu_world Samples.offload_failing_loader default_settings
           (init Samples.gpu_world default_settings)).
  reflexivity.
Defined.

(** A fresh engine on which the load raises is not loaded. *)
Lemma fresh_engine_failed_load (W : World) (L : Loader) (settings : Settings)
      (e : exn) :
  snd (load_model W L settings (init W settings)) = Raise e ->
  is_loaded (fst (load_model W L settings (init W settings))) = false.
Proof.
  destruct (load_model_cases W L settings (init W settings))
    as [[Hs _] | [[p [e' [Hs _]]] | [p [_ Hok]]]]; simpl in *.
  - now rewrite Hs.
  - now rewrite Hs.
  - rewrite Hok. discriminate.
Qed.

(** X16: startup survives a failed load.  When the directories can be made
    and the load on the fresh engine raises an [Exception], startup
    completes, the engine is left unloaded, and both generation routes
    answer 503 without calling anything. *)
Theorem startup_survives_failed_load
        (W : World) (L : Loader) (settings : Settings) (e : exn)
        (form : ImageForm) (text_form : TextForm) :
  snd (ensure_directories W settings) = Ok tt ->
  snd (load_model W L settings (init W settings)) = Raise e ->
  is_Exception (exn_cls e) = true ->
  let model := fst (startup W L settings (init W settings)) in
  snd (snd (startup W L settings (init W settings))) = Ok tt
  /\ is_loaded model = false
  /\ Routes.generate_video W model settings form
     = ([], HTTPException 503 "Model not loaded")
  /\ Routes.generate_video_from_text W model settings text_form
     = ([], HTTPException 503 "Model not loaded").
Proof.
  intros Hdirs Hload He. pose proof (fresh_engine_failed_load _ _ _ _ Hload) as Hnl.
  unfold startup.
  destruct (ensure_directories W settings) as [t [[]|e0]];
    simpl in Hdirs; [| discriminate].
  destruct (load_model W L settings (init W settings)) as [model' [[]|e1]];
    simpl in *; [discriminate |].
  injection Hload as ->. rewrite He. simpl.
  unfold Routes.generate_video, Routes.generate_video_from_text.
  rewrite Hnl. auto.
Qed.

Lemma startup_survives_failed_load_witness :
  let model := fst (startup bare_world Samples.missing_loader default_settings
                            (init bare_world default_settings)) in
  snd (snd (startup bare_world Samples.missing_loader default_settings
                    (init bare_world default_settings))) = Ok tt
  /\ is_loaded model = false
  /\ Routes.generate_video bare_world model default_settings
                           Samples.image_form
     = ([], HTTPException 503 "Model not loaded")
  /\ Routes.generate_video_from_text bare_world model default_settings
                                     Samples.text_form
     = ([], HTTPException 503 "Model not loaded").
Proof.
  apply (startup_survives_failed_load
           bare_world Samples.missing_loader default_settings
           (Exn FileNotFoundError
              "Model path does not exist: /home/chenyu/.cache/modelscope/hub/models/Wan-AI/Wan2___2-TI2V-5B-Diffusers")
           Samples.image_form Samples.text_form);
    reflexivity.
Defined.

(** X17: when [POST /model/reload] answers success the engine is loaded, so
    that the image route no longer answers 503, whatever it answers. *)
Theorem reload_success_ends_503
        (W : World) (L : Loader) (settings : Settings)
        (model model' : WanVideoModel) (body : list (string * string))
        (form : ImageForm) :
  reload_model W L settings model = (model', Json body) ->
  is_loaded model' = true
  /\ status_of (snd (Routes.generate_video W model' settings form)) <> 503.
Proof.
  unfold reload_model. intros H.
  assert (Hl : is_loaded model' = true).
  { pose proof (load_model_success_state W L settings model) as Hs.
    destruct (load_model W L settings model) as [m [[]|e]]; simpl in *.
    - injection H as <- _. now apply Hs.
    - destruct (is_Exception (exn_cls e)); discriminate. }
  split; [exact Hl |].
  unfold Routes.generate_video. rewrite Hl. simpl.
  destruct (validate_image_file (image form) settings) as [u|e].
  - unfold guard_500.
    match goal with
    | |- context [match ?b with (_, _) => _ end] => destruct b as [t [r|e]]
    end; simpl; [discriminate |].
    destruct (is_Exception (exn_cls e)); simpl; discriminate.
  - destruct (is_ValueError (exn_cls e)); simpl; discriminate.
Qed.

Lemma reload_success_ends_503_witness :
  is_loaded (fst (reload_model bare_world Samples.working_loader
                               default_settings
                               (init bare_world default_settings))) = true
  /\ status_of (snd (Routes.generate_video
                       bare_world
                       (fst (reload_model bare_world Samples.working_loader
                                          default_settings
                                          (init bare_world default_settings)))
                       default_settings Samples.image_form))
     <> 503.
Proof.
  apply (reload_success_ends_503
           bare_world Samples.working_loader default_settings
           (init bare_world default_settings) _
           [("status", "success"); ("message", "Model reloaded successfully")]).
  reflexivity.
Defined.

(** A reload that fails is answered 500 with the loader's message. *)
Lemma reload_failure_answers_500
      (W : World) (L : Loader) (settings : Settings) (model : WanVideoModel)
      (e : exn) :
  snd (load_model W L settings model) = Raise e ->
  is_Exception (exn_cls e) = true ->
  snd (reload_model W L settings model)
  = Failure 500 ("Error reloading model: " ++ exn_msg e).
Proof.
  unfold reload_model. intros H He.
  destruct (load_model W L settings model) as [m [[]|e']]; simpl in *;
    [discriminate |].
  injection H as ->. now rewrite He.
Qed.

End LoadingModel.

(** ** Letter case in upload validation *)

Section LetterCase.
Import Py Config FileUtils.

Lemma lower_ascii_idempotent (a : ascii) :
  lower_ascii (lower_ascii a) = lower_ascii a.
Proof. destruct a as [[] [] [] [] [] [] [] []]; reflexivity. Qed.

Lemma lower_ascii_dot (a : ascii) :
  Ascii.eqb (lower_ascii a) "." = Ascii.eqb a ".".
Proof. destruct a as [[] [] [] [] [] [] [] []]; reflexivity. Qed.

Lemma lower_ascii_slash (a : ascii) :
  Ascii.eqb (lower_ascii a) "/" = Ascii.eqb a "/".
Proof. destruct a as [[] [] [] [] [] [] [] []]; reflexivity. Qed.

Lemma str_lower_idempotent (s : string) : str_lower (str_lower s) = str_lower s.
Proof.
  induction s as [|a s IH]; simpl; [reflexivity |].
  now rewrite lower_ascii_idempotent, IH.
Qed.

Lemma str_lower_length (s : string) :
  String.length (str_lower s) = String.length s.
Proof. induction s as [|a s IH]; simpl; congruence. Qed.

Lemma str_lower_substring (n m : nat) (s : string) :
  String.substring n m (str_lower s) = str_lower (String.substring n m s).
Proof.
  revert n m. induction s as [|a s IH]; intros n m.
  - destruct n, m; reflexivity.
  - destruct n as [|n]; simpl.
    + destruct m as [|m]; simpl; [reflexivity |]. now rewrite IH.
    + apply IH.
Qed.

Lemma str_lower_rfind_dot (s : string) :
  str_rfind "." (str_lower s) = str_rfind "." s.
Proof.
  induction s as [|a s IH]; simpl; [reflexivity |].
  now rewrite IH, lower_ascii_dot.
Qed.

Lemma str_lower_lstrip_dot (s : string) :
  lstrip_char "." (str_lower s) = str_lower (lstrip_char "." s).
Proof.
  induction s as [|a s IH]; simpl; [reflexivity |].
  rewrite lower_ascii_dot. destruct (Ascii.eqb a "."); [exact IH | reflexivity].
Qed.

Lemma str_lower_split_slash (s : string) :
  str_split "/" (str_lower s) = map str_lower (str_split "/" s).
Proof.
  induction s as [|a s IH]; simpl; [reflexivity |].
  rewrite lower_ascii_slash, IH.
  destruct (Ascii.eqb a "/"); simpl; [reflexivity |].
  destruct (str_split "/" s); reflexivity.
Qed.

Lemma str_lower_path_component (s : string) :
  path_component (str_lower s) = path_component s.
Proof.
  unfold path_component. destruct s as [|a [|b s]]; simpl; try reflexivity.
  - now rewrite lower_ascii_dot.
  - rewrite lower_ascii_dot. destruct (Ascii.eqb a "."); reflexivity.
Qed.

Lemma str_lower_components (l : list string) :
  filter path_component (map str_lower l)
  = map str_lower (filter path_component l).
Proof.
  induction l as [|c cs IH]; simpl; [reflexivity |].
  rewrite str_lower_path_component, IH.
  destruct (path_component c); reflexivity.
Qed.

Lemma str_lower_last (l : list string) :
  last (map str_lower l) "" = str_lower (last l "").
Proof.
  induction l as [|c [|d cs] IH]; simpl in *; try reflexivity. exact IH.
Qed.

Lemma str_lower_Path_name (p : string) :
  Path_name (str_lower p) = str_lower (Path_name p).
Proof.
  unfold Path_name.
  now rewrite str_lower_split_slash, str_lower_components, str_lower_last.
Qed.

Lemma str_lower_Path_suffix (p : string) :
  Path_suffix (str_lower p) = str_lower (Path_suffix p).
Proof.
  unfold Path_suffix. rewrite str_lower_Path_name, str_lower_rfind_dot.
  destruct (str_rfind "." (Path_name p)) as [i|]; [| reflexivity].
  rewrite str_lower_length, str_lower_substring.
  destruct (_ && _)%bool; reflexivity.
Qed.

(** The extension the validator compares is in lower case. *)
Lemma file_ext_lower (name : string) :
  str_lower (file_ext name) = file_ext name.
Proof.
  unfold file_ext.
  now rewrite <- str_lower_lstrip_dot, str_lower_idempotent.
Qed.

Lemma file_ext_of_lower (name : string) :
  file_ext (str_lower name) = file_ext name.
Proof.
  unfold file_ext. now rewrite str_lower_Path_suffix, str_lower_idempotent.
Qed.

(** X18: validation does not depend on the letter case of the filename:
    an upload and the same upload with its name in lower case (ASCII) pass
    or fail alike, with the same message. *)
Theorem validation_ignores_filename_case
        (name : string) (sz : size_attr) (data : string) (settings : Settings) :
  validate_image_file
    {| filename := Some name; size := sz; content := data |} settings
  = validate_image_file
      {| filename := Some (str_lower name); size := sz; content := data |}
      settings.
Proof.
  unfold validate_image_file, size_too_large. simpl.
  rewrite file_ext_of_lower.
  destruct name; reflexivity.
Qed.

(** X19: an allow-list entry that is not in lower case is never matched:
    when no entry of the list is in lower case, every upload with a
    non-empty filename is refused. *)
Theorem uppercase_allow_list_refuses_all
        (file : UploadFile) (settings : Settings) (name : string) :
  filename file = Some name -> name <> "" ->
  (forall e, In e (get_allowed_extensions_list settings) -> str_lower e <> e) ->
  exists msg, validate_image_file file settings = Raise (Exn ValueError msg).
Proof.
  intros Hname Hne Hupper. unfold validate_image_file, raise.
  destruct (size_too_large file settings); [eauto |].
  rewrite Hname. apply truthy_str_nonempty in Hne. rewrite Hne.
  destruct (str_in (file_ext name) (get_allowed_extensions_list settings))
    eqn:Hin; simpl; [| eauto].
  apply str_in_In in Hin. apply Hupper in Hin.
  now rewrite file_ext_lower in Hin.
Qed.

Lemma uppercase_allow_list_refuses_all_witness :
  exists msg,
    validate_image_file (upload (Some "photo.JPG") SizeNone)
                        (with_limits ["JPG"; "Png"] 1000)
    = Raise (Exn ValueError msg).
Proof.
  apply (uppercase_allow_list_refuses_all _ _ "photo.JPG").
  - reflexivity.
  - discriminate.
  - simpl. intros e [<- | [<- | []]]; discriminate.
Defined.

End LetterCase.

(** ** The comma-separated allow-list *)

Section AllowList.
Import Py Config.

Lemma str_split_unsplit (c : ascii) (s : string) :
  str_rfind c s = None -> str_split c s = [s].
Proof.
  induction s as [|a s IH]; simpl; [reflexivity |].
  destruct (str_rfind c s); [discriminate |].
  destruct (Ascii.eqb a c); [discriminate |].
  intros _. now rewrite IH.
Qed.

Lemma str_split_first (c : ascii) (s t : string) :
  str_rfind c s = None ->
  str_split c (s ++ String c t) = s :: str_split c t.
Proof.
  induction s as [|a s IH]; simpl.
  - intros _. now rewrite Ascii.eqb_refl.
  - destruct (str_rfind c s); [discriminate |].
    destruct (Ascii.eqb a c); [discriminate |].
    intros _. now rewrite IH.
Qed.

Lemma str_split_join (c : ascii) (l : list string) :
  l <> [] -> Forall (fun s => str_rfind c s = None) l ->
  str_split c (str_join (String c EmptyString) l) = l.
Proof.
  intros Hne Hall. induction Hall as [|x l Hx Hall IH]; [congruence |].
  destruct l as [|y l].
  - simpl. now apply str_split_unsplit.
  - change (str_join (String c "") (x :: y :: l))
      with (x ++ String c (str_join (String c "") (y :: l))).
    rewrite str_split_first by assumption.
    f_equal. apply IH. discriminate.
Qed.

(** X20: an allow-list written as its entries joined by commas is parsed
    back to the same list, provided there is at least one entry and no
    entry contains a comma or starts or ends with white space. *)
Theorem parse_allowed_extensions_of_joined (l : list string) :
  l <> [] ->
  Forall (fun s => str_rfind "," s = None /\ str_strip s = s) l ->
  parse_allowed_extensions (ExtString (str_join "," l)) = l.
Proof.
  intros Hne Hall. unfold parse_allowed_extensions.
  rewrite str_split_join.
  - induction Hall as [|x l [_ Hx] _ IH]; [congruence |].
    simpl. rewrite Hx. f_equal.
    destruct l; [reflexivity | apply IH; discriminate].
  - exact Hne.
  - eapply Forall_impl; [| exact Hall]. now intros s [H _].
Qed.

Lemma parse_allowed_extensions_of_joined_witness :
  parse_allowed_extensions (ExtString "jpg,jpeg,png,webp,bmp")
  = ["jpg"; "jpeg"; "png"; "webp"; "bmp"].
Proof.
  apply (parse_allowed_extensions_of_joined
           ["jpg"; "jpeg"; "png"; "webp"; "bmp"]).
  - discriminate.
  - repeat constructor.
Defined.

End AllowList.

(** ** The dependency check *)

Section Dependencies.
Import Py Config Launcher.

(** X21: the dependency loop tries every package.  It ends normally exactly
    when no import raises anything but [ImportError], and then reports the
    packages whose import raised [ImportError], all of them, in the order
    of the list. *)
Theorem missing_packages_all_listed
        (env : Env) (packages missing : list string) :
  missing_among env packages = Ok missing
  <-> (forall p, In p packages ->
                 forall msg, import_package env p <> ImportCrashed msg)
      /\ missing
         = filter (fun p => match import_package env p with
                            | ImportFailed => true
                            | _ => false
                            end) packages.
Proof.
  revert missing. induction packages as [|p ps IH]; intros missing; simpl.
  - split.
    + intros H. injection H as <-. split; [intros p [] | reflexivity].
    + intros [_ ->]. reflexivity.
  - destruct (import_package env p) as [| |m] eqn:Hp.
    + rewrite IH. split; intros [Hc Hm]; (split; [| exact Hm]).
      * intros q [<- | Hq] msg; [congruence | now apply Hc].
      * intros q Hq. apply Hc. now right.
    + destruct (missing_among env ps) as [l|e] eqn:Hrest; simpl.
      * destruct (IH l) as [Hl _]. destruct (Hl eq_refl) as [Hc ->].
        split.
        -- intros H. injection H as <-. split; [| reflexivity].
           intros q [<- | Hq] msg; [congruence | now apply Hc].
        -- intros [_ ->]. reflexivity.
      * split; [discriminate |].
        intros [Hc _]. exfalso.
        destruct (IH (filter (fun p0 => match import_package env p0 with
                                        | ImportFailed => true
                                        | _ => false
                                        end) ps)) as [_ Hback].
        discriminate Hback. split; [| reflexivity].
        intros q Hq. apply Hc. now right.
    + split; [discriminate |].
      intros [Hc _]. exfalso. apply (Hc p (or_introl eq_refl) m). exact Hp.
Qed.

End Dependencies.

(** ** More on listing and cleanup *)

Section FilesMore.
Import Py Config FileUtils FileOps.

(** X22: the listing has one record per regular file, and files created at
    the same time appear in the order in which the directory listed them. *)
Theorem list_output_files_ties_keep_listing_order
        (fs : string -> fs_node) (output_dir : string)
        (entries : list dir_entry) (files : list file_info) (t : Z) :
  fs output_dir = Dir entries ->
  list_output_files fs output_dir = Ok files ->
  List.length files = List.length (filter is_file entries)
  /\ filter (fun f => info_created f =? t) files
     = filter (fun f => info_created f =? t)
              (map info_of (filter is_file entries)).
Proof.
  unfold list_output_files. intros -> H. simpl in H. injection H as <-.
  split.
  - rewrite (Permutation_length (sorted_desc_perm info_created _)).
    apply length_map.
  - apply sorted_desc_stable.
Qed.

Lemma list_output_files_ties_keep_listing_order_witness :
  let entry n t :=
    {| entry_name := n; entry_kind_of := RegularFile; st_size := 1;
       st_ctime := t; st_mtime := t |} in
  let fs := fun _ : string =>
              Dir [entry "b.mp4" 5; entry "a.mp4" 7; entry "c.mp4" 5] in
  List.length [info_of (entry "a.mp4" 7); info_of (entry "b.mp4" 5);
               info_of (entry "c.mp4" 5)] = 3%nat
  /\ filter (fun f => info_created f =? 5)
            [info_of (entry "a.mp4" 7); info_of (entry "b.mp4" 5);
             info_of (entry "c.mp4" 5)]
     = [info_of (entry "b.mp4" 5); info_of (entry "c.mp4" 5)].
Proof.
  intros entry fs.
  apply (list_output_files_ties_keep_listing_order
           fs "outputs"
           [entry "b.mp4" 5; entry "a.mp4" 7; entry "c.mp4" 5]
           _ 5); reflexivity.
Defined.

(** X23: [cleanup_file] never raises an [Exception], calls [os.remove] at
    most once, and only on the given path when that path exists. *)
Theorem cleanup_file_is_quiet (fs : FileSystem) (file_path : string) :
  (forall e, snd (cleanup_file fs file_path) = Raise e ->
             is_Exception (exn_cls e) = false)
  /\ (fst (cleanup_file fs file_path) = []
      \/ (os_path_exists fs file_path = true
          /\ fst (cleanup_file fs file_path) = [file_path])).
Proof.
  unfold cleanup_file. destruct (os_path_exists fs file_path).
  - destruct (os_remove fs file_path) as [u|e0]; simpl.
    + split; [discriminate | auto].
    + destruct (is_Exception (exn_cls e0)) eqn:He; simpl.
      * split; [discriminate | auto].
      * split; [| auto]. intros e H. injection H as <-. exact He.
  - simpl. split; [discriminate | auto].
Qed.

End FilesMore.

(** ** The smoke-test script *)

Section Smoke.
Import Py SmokeTest.

(** X25: the script posts a generation request only when the health check
    was answered 200 with a true [model_loaded] and [--skip-generation] was
    not given; it posts at most once, after its two GET requests. *)
Theorem smoke_test_posts_only_when_loaded
        (c : Client) (disk : Disk) (args : Args) :
  filter is_post (fst (main c disk args)) <> [] ->
  get c (url args ++ "/api/v1/health") = GetJson 200 true
  /\ skip_generation args = false
  /\ exists req,
      fst (main c disk args)
      = [Get (url args ++ "/api/v1/health");
         Get (url args ++ "/api/v1/model/info"); req]
      /\ is_post req = true.
Proof.
  unfold main, test_health_check, test_model_info.
  destruct (get c (url args ++ "/api/v1/health")) as [s l| |] eqn:Hh;
    simpl; try congruence.
  destruct (s =? 200) eqn:Hs; simpl; [| congruence].
  destruct l; simpl; [| congruence].
  destruct (skip_generation args); simpl; [congruence |].
  apply Z.eqb_eq in Hs. subst s.
  match goal with
  | |- context [match ?prep with Ok _ => _ | Raise _ => _ end] =>
      destruct prep as [[disk' img]|e]
  end; simpl; [| congruence].
  unfold test_generate_video.
  destruct (exists_path disk' img); simpl; [| congruence].
  intros _. repeat split. eexists. split; reflexivity.
Qed.

Lemma smoke_test_posts_only_when_loaded_witness :
  let c := {| get := fun _ => GetJson 200 true;
              post := fun _ => Answered 200 "mp4" |} in
  let disk := {| exists_path := fun _ => false; writable := fun _ => true |} in
  let args := {| url := "http://localhost:8000"; image := None;
                 quick := true; skip_generation := false |} in
  get c (url args ++ "/api/v1/health") = GetJson 200 true
  /\ skip_generation args = false
  /\ exists req,
      fst (main c disk args)
      = [Get (url args ++ "/api/v1/health");
         Get (url args ++ "/api/v1/model/info"); req]
      /\ is_post req = true.
Proof.
  intros c disk args.
  apply (smoke_test_posts_only_when_loaded c disk args).
  vm_compute. discriminate.
Defined.

(** X26: every request the script posts goes to [/api/v1/generate_video]
    under the given base URL, uploads the image under the name [test.jpg],
    and carries 25 frames, 20 steps and a 300 s timeout in quick mode, 121
    frames, 50 steps and a 1200 s timeout otherwise, with guidance 5.0 in
    both. *)
Theorem smoke_test_post_parameters
        (c : Client) (disk : Disk) (args : Args)
        (u name path : string) (data : PostData) (timeout : Z) :
  In (Post u name path data timeout) (fst (main c disk args)) ->
  u = url args ++ "/api/v1/generate_video"
  /\ name = "test.jpg"
  /\ d_guidance_scale data = Config.five
  /\ (if quick args
      then d_num_frames data = 25 /\ d_num_inference_steps data = 20
           /\ timeout = 300
      else d_num_frames data = 121 /\ d_num_inference_steps data = 50
           /\ timeout = 1200).
Proof.
  unfold main, test_health_check, test_model_info.
  assert (Hgets : forall a b (P : Prop),
             In (Post u name path data timeout) [Get a; Get b] -> P).
  { intros a b P [H | [H | []]]; discriminate. }
  destruct (match get c (url args ++ "/api/v1/health") with
            | GetJson status loaded => if status =? 200 then loaded else false
            | _ => false
            end); simpl negb; cbv iota; [| apply Hgets].
  destruct (skip_generation args); [apply Hgets |].
  match goal with
  | |- context [match ?prep with Ok _ => _ | Raise _ => _ end] =>
      destruct prep as [[disk' img]|e]
  end; [| apply Hgets].
  unfold test_generate_video.
  destruct (exists_path disk' img); [| apply Hgets].
  simpl. intros [H | [H | [H | []]]]; try discriminate.
  injection H as <- <- <- <- <-.
  destruct (quick args); repeat split.
Qed.

Lemma smoke_test_post_parameters_witness :
  "http://localhost:8000/api/v1/generate_video"
  = "http://localhost:8000" ++ "/api/v1/generate_video"
  /\ "test.jpg" = "test.jpg"
  /\ d_guidance_scale full_data = Config.five
  /\ d_num_frames full_data = 121 /\ d_num_inference_steps full_data = 50
     /\ 1200 = 1200.
Proof.
  apply (smoke_test_post_parameters
           {| get := fun _ => GetJson 200 true;
              post := fun _ => TimedOut |}
           {| exists_path := fun _ => true; writable := fun _ => true |}
           {| url := "http://localhost:8000"; image := Some "face.png";
              quick := false; skip_generation := false |}
           _ _ "face.png").
  vm_compute. right. right. left. reflexivity.
Defined.

End Smoke.

(** ** Zero-valued form fields and the configured defaults *)

Section ZeroFields.
Import Py Config FileUtils WanModel Engine Routes.

Lemma bindM_lift_ok {A B : Type} (a : A) (k : A -> M B) :
  bindM (lift (Ok a)) k = k a.
Proof. unfold bindM, lift. destruct (k a). reflexivity. Qed.

(** The handler of a loaded engine, on an upload that is valid and decodes:
    the engine call on the numbers after [x or default], then the export. *)
Lemma image_route_engine_run
      (W : World) (model : WanVideoModel) (settings : Settings)
      (form : ImageForm) (pil : Image) :
  is_loaded model = true ->
  validate_image_file (image form) settings = Ok tt ->
  Image_open_bytes W (content (image form)) = Ok pil ->
  Routes.generate_video W model settings form
  = guard_500 "Error generating video: "
      (output_frames <~
         Engine.generate_video
           W model pil (prompt form)
           (form_default (negative_prompt form) default_negative_prompt)
           (int_or (num_frames form) (default_num_frames settings))
           (int_or (num_inference_steps form)
                   (default_num_inference_steps settings))
           (float_or (guidance_scale form) (default_guidance_scale settings))
           (int_or (max_area form) (default_max_area settings)) ;;
       export_and_respond W model settings "generated_video_" output_frames).
Proof.
  intros Hl Hv Hopen. unfold Routes.generate_video.
  rewrite Hl, Hv. change (negb true) with false. cbv beta iota zeta.
  rewrite Hopen, bindM_lift_ok. reflexivity.
Qed.

(** C10: in the [generate_video] handler of both variants a numeric form
    field given as 0 ([num_frames], [num_inference_steps], [max_area]) or as
    0.0 ([guidance_scale]) is replaced by the configured default.  The run
    with the zero equals the run with the field omitted, in every state (in
    the text handler too);
    and on a loaded engine with a valid, decodable upload that run is the
    engine call with the configured default in the field's place, followed
    by the export: the engine is called, preprocessing uses the default
    [max_area], and the pipeline receives the default numbers. *)
Theorem zero_form_fields_fall_back_to_defaults
        (W : World) (model : WanVideoModel) (settings : Settings)
        (status : Z) (authorization : option string)
        (file : UploadFile) (text : string) (negative : option string)
        (nf ns ma h w : option Z) (gs : option float)
        (pil processed : Image) :
  let form nf ns gs ma :=
    {| image := file; prompt := text; negative_prompt := negative;
       num_frames := nf; num_inference_steps := ns; guidance_scale := gs;
       max_area := ma |} in
  let text_form nf ns gs :=
    {| t_prompt := text; t_negative_prompt := negative;
       t_num_frames := nf; t_num_inference_steps := ns;
       t_guidance_scale := gs; t_height := h; t_width := w |} in
  let zero := Some (S754_zero false) in
  let d_nf := default_num_frames settings in
  let d_ns := default_num_inference_steps settings in
  let d_gs := default_guidance_scale settings in
  let d_ma := default_max_area settings in
  let negative_prompt := form_default negative default_negative_prompt in
  let engine_run nf ns gs ma :=
    guard_500 "Error generating video: "
      (output_frames <~
         Engine.generate_video W model pil text negative_prompt nf ns gs ma ;;
       export_and_respond W model settings "generated_video_" output_frames) in
  (* a zero runs as the omitted field, in both variants *)
  (Routes.generate_video W model settings (form (Some 0) ns gs ma)
   = Routes.generate_video W model settings (form None ns gs ma)
   /\ Routes.generate_video W model settings (form nf (Some 0) gs ma)
      = Routes.generate_video W model settings (form nf None gs ma)
   /\ Routes.generate_video W model settings (form nf ns zero ma)
      = Routes.generate_video W model settings (form nf ns None ma)
   /\ Routes.generate_video W model settings (form nf ns gs (Some 0))
      = Routes.generate_video W model settings (form nf ns gs None))
  /\ (AuthRoutes.generate_video status W model settings authorization
                                (form (Some 0) ns gs ma)
      = AuthRoutes.generate_video status W model settings authorization
                                  (form None ns gs ma)
      /\ AuthRoutes.generate_video status W model settings authorization
                                   (form nf (Some 0) gs ma)
         = AuthRoutes.generate_video status W model settings authorization
                                     (form nf None gs ma)
      /\ AuthRoutes.generate_video status W model settings authorization
                                   (form nf ns zero ma)
         = AuthRoutes.generate_video status W model settings authorization
                                     (form nf ns None ma)
      /\ AuthRoutes.generate_video status W model settings authorization
                                   (form nf ns gs (Some 0))
         = AuthRoutes.generate_video status W model settings authorization
                                     (form nf ns gs None))
  (* the same in the text handler *)
  /\ (Routes.generate_video_from_text W model settings
                                      (text_form (Some 0) ns gs)
      = Routes.generate_video_from_text W model settings (text_form None ns gs)
      /\ Routes.generate_video_from_text W model settings
                                         (text_form nf (Some 0) gs)
         = Routes.generate_video_from_text W model settings
                                           (text_form nf None gs)
      /\ Routes.generate_video_from_text W model settings
                                         (text_form nf ns zero)
         = Routes.generate_video_from_text W model settings
                                           (text_form nf ns None))
  (* and the value used is the configured default *)
  /\ (is_loaded model = true ->
      validate_image_file file settings = Ok tt ->
      Image_open_bytes W (content file) = Ok pil ->
      Routes.generate_video W model settings (form (Some 0) ns gs ma)
      = engine_run d_nf (int_or ns d_ns) (float_or gs d_gs) (int_or ma d_ma)
      /\ Routes.generate_video W model settings (form nf (Some 0) gs ma)
         = engine_run (int_or nf d_nf) d_ns (float_or gs d_gs) (int_or ma d_ma)
      /\ Routes.generate_video W model settings (form nf ns zero ma)
         = engine_run (int_or nf d_nf) (int_or ns d_ns) d_gs (int_or ma d_ma)
      /\ Routes.generate_video W model settings (form nf ns gs (Some 0))
         = engine_run (int_or nf d_nf) (int_or ns d_ns) (float_or gs d_gs) d_ma
      /\ Routes.generate_video W model settings
                               (form (Some 0) (Some 0) zero (Some 0))
         = engine_run d_nf d_ns d_gs d_ma
      /\ (forall user,
             AuthRoutes.verify_api_token status settings authorization
             = AuthRoutes.Resolved user ->
             AuthRoutes.generate_video status W model settings authorization
                                       (form (Some 0) (Some 0) zero (Some 0))
             = engine_run d_nf d_ns d_gs d_ma)
      /\ (ImageProcessor.call W (ByImage pil) d_ma = Ok processed ->
          exists rest,
            fst (Routes.generate_video W model settings
                                       (form (Some 0) (Some 0) zero (Some 0)))
            = EngineCalled "generate_video"
              :: PipelineCalled
                   {| pa_image := Some processed;
                      pa_prompt := text;
                      pa_negative_prompt := negative_prompt;
                      pa_height := height processed;
                      pa_width := width processed;
                      pa_num_frames := d_nf;
                      pa_guidance_scale := d_gs;
                      pa_num_inference_steps := d_ns |}
              :: rest)).
Proof.
  intros form text_form zero d_nf d_ns d_gs d_ma negative_prompt engine_run.
  destruct (zero_field_runs_as_omitted
              W model settings status authorization file text negative
              nf ns ma h w gs) as [Hopen [Hauth Htext]].
  split; [exact Hopen |]. split; [exact Hauth |]. split; [exact Htext |].
  intros Hl Hv Hdec.
  assert (Hrun : forall a b c d,
             Routes.generate_video W model settings (form a b c d)
             = engine_run (int_or a d_nf) (int_or b d_ns) (float_or c d_gs)
                          (int_or d d_ma)).
  { intros a b c d.
    apply (image_route_engine_run W model settings (form a b c d) pil);
      assumption. }
  split; [apply Hrun |]. split; [apply Hrun |]. split; [apply Hrun |].
  split; [apply Hrun |]. split; [apply Hrun |].
  split.
  - intros user Huser. unfold AuthRoutes.generate_video. rewrite Huser.
    apply Hrun.
  - intros Hproc. rewrite Hrun. subst engine_run. simpl.
    apply is_loaded_true_iff in Hl. destruct Hl as [p [ip [Hp Hip]]].
    rewrite (generate_video_loaded W model p ip) by assumption.
    rewrite Hproc. unfold guard_500, bindM. simpl.
    destruct (p _) as [frames|e]; simpl.
    + destruct (first_frames frames) as [f|e]; simpl.
      * destruct (export_and_respond W model settings "generated_video_" f)
          as [t' [r|e]]; simpl.
        -- eexists. reflexivity.
        -- destruct (is_Exception (exn_cls e)); eexists; reflexivity.
      * destruct (is_Exception (exn_cls e)); eexists; reflexivity.
    + destruct (is_Exception (exn_cls e)); eexists; reflexivity.
Qed.

Lemma zero_form_fields_fall_back_to_defaults_witness :
  exists rest,
    fst (Routes.generate_video
           (Samples.decoding_world "RGB" 640 480) Samples.loaded_engine
           default_settings
           {| image := upload (Some "photo.png") SizeNone;
              prompt := "a cat"; negative_prompt := Some "blur";
              num_frames := Some 0; num_inference_steps := Some 0;
              guidance_scale := Some (S754_zero false);
              max_area := Some 0 |})
    = EngineCalled "generate_video"
      :: PipelineCalled
           {| pa_image := Some {| mode := "RGB"; width := 640; height := 480 |};
              pa_prompt := "a cat"; pa_negative_prompt := "blur";
              pa_height := 480; pa_width := 640;
              pa_num_frames := 121; pa_guidance_scale := five;
              pa_num_inference_steps := 50 |}
      :: rest.
Proof.
  destruct (zero_form_fields_fall_back_to_defaults
              (Samples.decoding_world "RGB" 640 480) Samples.loaded_engine
              default_settings 403 None
              (upload (Some "photo.png") SizeNone) "a cat" (Some "blur")
              None None None None None None
              {| mode := "RGB"; width := 640; height := 480 |}
              {| mode := "RGB"; width := 640; height := 480 |})
    as [_ [_ [_ H]]].
  destruct (H eq_refl eq_refl eq_refl) as [_ [_ [_ [_ [_ [_ Hpipe]]]]]].
  apply Hpipe. reflexivity.
Defined.

End ZeroFields.
